(** * Heat Risk Index pipeline of [run_hri.py]

    A shallow embedding of the HRI engine ([build_hri]), the level
    classifier ([risk_level_from_T_D]), the event builder
    ([build_final_event]) and [main], followed by the properties the
    specification states about them.

    Modelling conventions.
    - A [float64] keeps the three IEEE special values apart ([NaN], [PInf],
      [NInf]) because the source tests [np.isfinite] and relies on NaN
      propagation; finite values are idealised as real numbers, so rounding,
      overflow and the sign of zero are outside the model.
    - A pandas DataFrame is a list of rows; a calendar date is the number of
      days since 1970-01-01.
    - pandas does not promise an order for rows with equal sort keys; the
      model keeps their input order.
    - The two data-access functions [ensure_oisst_file] and
      [compute_jeju_mean_sst] are parameters of [main]; module
      [Acquisition] models them over a download folder and over a
      latitude by longitude grid.
    - Python [int]s are [Z].
    - The files written by [main] are kept in an explicit [filesystem]
      threaded through a small state-and-exception monad. *)

From Stdlib Require Import Reals Lra ZArith Lia List String Ascii Bool.
From Stdlib Require Import Sorted Permutation FinFun.
Import ListNotations.

Open Scope string_scope.
Open Scope Z_scope.

(* ================================================================== *)
(** ** Floating-point values *)

Module Float64.

Inductive float64 : Type :=
| NaN
| PInf
| NInf
| Fin (r : R).

Definition Rleb (x y : R) : bool := if Rle_dec x y then true else false.
Definition Rltb (x y : R) : bool := if Rlt_dec x y then true else false.

(** [np.isfinite] *)
Definition isfinite (x : float64) : bool :=
  match x with
  | Fin _ => true
  | _ => false
  end.

Definition isnan (x : float64) : bool :=
  match x with
  | NaN => true
  | _ => false
  end.

Definition isinf (x : float64) : bool :=
  match x with
  | PInf | NInf => true
  | _ => false
  end.

Definition fneg (x : float64) : float64 :=
  match x with
  | NaN => NaN
  | PInf => NInf
  | NInf => PInf
  | Fin a => Fin (- a)
  end.

Definition fadd (x y : float64) : float64 :=
  match x, y with
  | NaN, _ | _, NaN => NaN
  | PInf, NInf | NInf, PInf => NaN
  | PInf, _ | _, PInf => PInf
  | NInf, _ | _, NInf => NInf
  | Fin a, Fin b => Fin (a + b)
  end.

Definition fsub (x y : float64) : float64 := fadd x (fneg y).

(** The infinity carrying the sign of the real [a]; [0 * inf] is NaN. *)
Definition scale_inf (a : R) (positive : bool) : float64 :=
  if Rltb 0 a then (if positive then PInf else NInf)
  else if Rltb a 0 then (if positive then NInf else PInf)
  else NaN.

Definition fmul (x y : float64) : float64 :=
  match x, y with
  | NaN, _ | _, NaN => NaN
  | PInf, PInf | NInf, NInf => PInf
  | PInf, NInf | NInf, PInf => NInf
  | Fin a, PInf | PInf, Fin a => scale_inf a true
  | Fin a, NInf | NInf, Fin a => scale_inf a false
  | Fin a, Fin b => Fin (a * b)
  end.

Definition fabs (x : float64) : float64 :=
  match x with
  | NaN => NaN
  | PInf | NInf => PInf
  | Fin a => Fin (Rabs a)
  end.

(** [np.maximum]: a NaN operand gives NaN. *)
Definition fmaximum (x y : float64) : float64 :=
  match x, y with
  | NaN, _ | _, NaN => NaN
  | PInf, _ | _, PInf => PInf
  | NInf, z | z, NInf => z
  | Fin a, Fin b => Fin (Rmax a b)
  end.

(** [np.log]: no exception, [log 0 = -inf], NaN below zero. *)
Definition flog (x : float64) : float64 :=
  match x with
  | NaN | NInf => NaN
  | PInf => PInf
  | Fin a => if Rltb 0 a then Fin (ln a)
             else if Rltb a 0 then NaN
             else NInf
  end.

(** [x >= y]; every comparison with NaN is false. *)
Definition fge (x y : float64) : bool :=
  match x, y with
  | NaN, _ | _, NaN => false
  | PInf, _ => true
  | _, NInf => true
  | NInf, _ => false
  | Fin _, PInf => false
  | Fin a, Fin b => Rleb b a
  end.

(** [x < y] *)
Definition flt (x y : float64) : bool :=
  match x, y with
  | NaN, _ | _, NaN => false
  | PInf, _ => false
  | _, NInf => false
  | NInf, _ => true
  | Fin _, PInf => true
  | Fin a, Fin b => Rltb a b
  end.

(** [Series.fillna]: only NaN is replaced (infinities are kept). *)
Definition fillna (x value : float64) : float64 :=
  if isnan x then value else x.

(** Conversion of an integer column to float. *)
Definition of_int (n : Z) : float64 := Fin (IZR n).

End Float64.
Import Float64.

(* ================================================================== *)
(** ** Settings *)

Definition T_BASE : float64 := Fin 28.
Definition ALPHA : float64 := Fin 1.
Definition BETA : float64 := Fin (8 / 10).
Definition GAMMA : float64 := Fin (5 / 10).
Definition HRI_THRESHOLD : float64 := Fin 3.
Definition SEVERE_TEMP : float64 := Fin 30.

Definition JEJU_LAT_MIN : float64 := Fin 32.
Definition JEJU_LAT_MAX : float64 := Fin 35.
Definition JEJU_LON_MIN : float64 := Fin 124.
Definition JEJU_LON_MAX : float64 := Fin 129.

Definition START_DATE : string := "2024-07-20".
Definition END_DATE : string := "2024-10-05".

Definition REGION_ID : string := "JEJU_OFFSHORE".
Definition DATASET_NAME : string := "NOAA OISST v2.1 AVHRR daily (0.25deg)".
Definition MODEL_VERSION : string := "hri-v1.1-levels".

(** [os.path.join] with the POSIX separator. *)
Definition path_join (a b : string) : string := (a ++ "/" ++ b)%string.

Definition OUT_DIR : string := "outputs".
Definition OUT_HRI_CSV : string := path_join OUT_DIR "oisst_jeju_hri.csv".
Definition OUT_TRIGGER_LIST_JSON : string := path_join OUT_DIR "trigger_events.json".
Definition OUT_FINAL_EVENT_JSON : string := path_join OUT_DIR "final_alert_event.json".

(* ================================================================== *)
(** ** Level classification *)

Inductive risk_level : Type :=
| NORMAL
| WATCH
| WARNING
| SEVERE
| UNKNOWN.

Definition level_str (l : risk_level) : string :=
  match l with
  | NORMAL => "NORMAL"
  | WATCH => "WATCH"
  | WARNING => "WARNING"
  | SEVERE => "SEVERE"
  | UNKNOWN => "UNKNOWN"
  end.

Definition risk_level_from_T_D (T_t : float64) (D_con : Z) : risk_level :=
  if negb (isfinite T_t) then UNKNOWN
  else if flt T_t T_BASE then NORMAL
  else if D_con <? 3 then WATCH
  else if flt T_t SEVERE_TEMP then WARNING
  else SEVERE.

(* ================================================================== *)
(** ** Calendar dates *)

Module Dates.

(** Year, month and day of a day count (proleptic Gregorian calendar). *)
Definition civil_from_days (days : Z) : Z * Z * Z :=
  let z := days + 719468 in
  let era := z / 146097 in
  let doe := z - era * 146097 in
  let yoe := (doe - doe / 1460 + doe / 36524 - doe / 146096) / 365 in
  let doy := doe - (365 * yoe + yoe / 4 - yoe / 100) in
  let mp := (5 * doy + 2) / 153 in
  let d := doy - (153 * mp + 2) / 5 + 1 in
  let m := if mp <? 10 then mp + 3 else mp - 9 in
  let y := yoe + era * 400 in
  (if m <=? 2 then y + 1 else y, m, d).

Definition digit (n : Z) : string :=
  String (ascii_of_nat (48 + Z.to_nat (n mod 10))) EmptyString.

Definition dec2 (n : Z) : string := (digit (n / 10) ++ digit n)%string.
Definition dec4 (n : Z) : string := (dec2 (n / 100) ++ dec2 n)%string.

(** [strftime("%Y-%m-%d")] *)
Definition strftime (days : Z) : string :=
  let '(y, m, d) := civil_from_days days in
  (dec4 y ++ "-" ++ dec2 m ++ "-" ++ dec2 d)%string.

(** [daterange]: every day from [start] to [stop], both included. *)
Definition daterange (start stop : Z) : list Z :=
  map (fun i => start + Z.of_nat i) (seq 0 (Z.to_nat (stop - start + 1))).

(** Day counts of [START_DATE] and [END_DATE]. *)
Definition start_day : Z := 19924.
Definition end_day : Z := 20001.

End Dates.
Import Dates.

(* ================================================================== *)
(** ** The HRI engine *)

(** A row of [df_daily]. *)
Record daily_row : Type := mk_daily {
  o_date : Z;
  o_file : string;
  o_T_t : float64
}.

(** A row of the frame returned by [build_hri]. *)
Record hri_row : Type := mk_hri {
  date : Z;
  file : string;
  T_t : float64;
  D_con : Z;
  V_var : float64;
  HRI : float64;
  trigger : bool;
  level : risk_level
}.

(** [sort_values("date")]: ascending; rows with equal dates keep their
    relative order (each row is inserted in front of the equal-dated rows
    that followed it in the input). *)
Fixpoint insert_by_date (r : daily_row) (l : list daily_row) : list daily_row :=
  match l with
  | [] => [r]
  | x :: l' => if o_date r <=? o_date x then r :: l
               else x :: insert_by_date r l'
  end.

Definition sort_values (df : list daily_row) : list daily_row :=
  fold_right insert_by_date [] df.

(** The loop condition of the streak counter. *)
Definition qualifies (t : float64) : bool := isfinite t && fge t T_BASE.

(** The [D_con] loop, started with the counter at [streak]. *)
Fixpoint dcon_loop (streak : Z) (ts : list float64) : list Z :=
  match ts with
  | [] => []
  | t :: ts' =>
      let streak' := if qualifies t then streak + 1 else 0 in
      streak' :: dcon_loop streak' ts'
  end.

(** [Series.diff]: NaN in the first position, then [x_i - x_{i-1}]. *)
Fixpoint diff_from (prev : float64) (xs : list float64) : list float64 :=
  match xs with
  | [] => []
  | x :: xs' => fsub x prev :: diff_from x xs'
  end.

Definition diff (xs : list float64) : list float64 :=
  match xs with
  | [] => []
  | x :: xs' => NaN :: diff_from x xs'
  end.

Definition v_var_column (ts : list float64) : list float64 :=
  map (fun d => fillna (fabs d) (Fin 0)) (diff ts).

(** The HRI formula, elementwise. *)
Definition hri_formula (t : float64) (d : Z) (v : float64) : float64 :=
  fadd (fadd (fmul ALPHA (fmaximum (Fin 0) (fsub t T_BASE)))
             (fmul BETA (flog (fadd (of_int d) (Fin 1)))))
       (fmul GAMMA v).

(** The elementwise columns of one row, given its [D_con] and [V_var]. *)
Definition add_columns (x : daily_row * (Z * float64)) : hri_row :=
  let '(o, (d, v)) := x in
  let h := hri_formula (o_T_t o) d v in
  {| date := o_date o;
     file := o_file o;
     T_t := o_T_t o;
     D_con := d;
     V_var := v;
     HRI := h;
     trigger := fge h HRI_THRESHOLD;
     level := risk_level_from_T_D (o_T_t o) d |}.

Definition build_hri (df_daily : list daily_row) : list hri_row :=
  let df := sort_values df_daily in
  let ts := map o_T_t df in
  let dcon := dcon_loop 0 ts in
  let vvar := v_var_column ts in
  map add_columns (combine df (combine dcon vvar)).

(* ================================================================== *)
(** ** JSON values and the event builder *)

#[local] Set Warnings "-register-all".

Inductive json : Type :=
| JNull
| JBool (b : bool)
| JInt (n : Z)
| JFloat (x : float64)
| JStr (s : string)
| JArr (items : list json)
| JObj (members : list (string * json)).

(** The keys of an object, in insertion order. *)
Definition keys (j : json) : list string :=
  match j with
  | JObj members => map fst members
  | _ => []
  end.

(** [j[k]] *)
Definition get (k : string) (j : json) : option json :=
  match j with
  | JObj members =>
      option_map snd (find (fun kv => String.eqb (fst kv) k) members)
  | _ => None
  end.

(** [float(x)] cannot fail on a float column, so [to_float] never
    takes its [except] branch. *)
Definition to_float (x : float64) : json := JFloat x.

(** [str(3.0)] *)
Definition HRI_THRESHOLD_str : string := "3.0".

Definition build_final_event (row : hri_row) : json :=
  let date_str := strftime (date row) in
  JObj [
    ("event_type", JStr "HRI_TRIGGER");
    ("region", JStr REGION_ID);
    ("date", JStr date_str);
    ("metrics", JObj [
       ("T_t", to_float (T_t row));
       ("D_con", JInt (D_con row));
       ("V_var", to_float (V_var row));
       ("HRI", to_float (HRI row)) ]);
    ("threshold", JObj [
       ("HRI", JFloat HRI_THRESHOLD);
       ("T_base", JFloat T_BASE);
       ("severe_temp", JFloat SEVERE_TEMP);
       ("warning_duration_days", JInt 3) ]);
    ("weights", JObj [
       ("alpha", JFloat ALPHA);
       ("beta", JFloat BETA);
       ("gamma", JFloat GAMMA) ]);
    ("source", JObj [
       ("dataset", JStr DATASET_NAME);
       ("roi", JObj [
          ("lat_min", JFloat JEJU_LAT_MIN);
          ("lat_max", JFloat JEJU_LAT_MAX);
          ("lon_min", JFloat JEJU_LON_MIN);
          ("lon_max", JFloat JEJU_LON_MAX) ]);
       ("model_version", JStr MODEL_VERSION) ]);
    ("decision", JObj [
       ("triggered", JBool true);
       ("level", JStr (level_str (level row))) ]);
    ("message",
     JStr ("[" ++ REGION_ID ++ "] " ++ level_str (level row)
           ++ " - HRI trigger on " ++ date_str
           ++ " (HRI≥" ++ HRI_THRESHOLD_str ++ ").")%string)
  ].

(** The payload [main] writes when no day triggers. *)
Definition no_trigger_event : json :=
  JObj [
    ("event_type", JStr "HRI_TRIGGER");
    ("region", JStr REGION_ID);
    ("date", JNull);
    ("decision", JObj [
       ("triggered", JBool false);
       ("level", JStr "NORMAL") ]);
    ("message",
     JStr ("[" ++ REGION_ID ++ "] No trigger in " ++ START_DATE ++ " ~ "
           ++ END_DATE ++ ". Adjust threshold if needed.")%string)
  ].

(** One element of [to_dict(orient="records")], the date already
    formatted. *)
Definition to_record (r : hri_row) : json :=
  JObj [
    ("date", JStr (strftime (date r)));
    ("file", JStr (file r));
    ("T_t", JFloat (T_t r));
    ("D_con", JInt (D_con r));
    ("V_var", JFloat (V_var r));
    ("HRI", JFloat (HRI r));
    ("trigger", JBool (trigger r));
    ("level", JStr (level_str (level r)))
  ].

(* ================================================================== *)
(** ** Output files and [main] *)

Inductive artifact : Type :=
| CsvFile (table : list hri_row)
| JsonFile (content : json).

Record filesystem : Type := mk_fs {
  dirs : list string;
  files : list (string * artifact)
}.

Inductive exn : Type :=
| RuntimeError (msg : string)
| IndexError.

Module IO.

(** Computations that read and write the filesystem and may raise. *)
Definition io (A : Type) : Type := filesystem -> (exn + A) * filesystem.

Definition ret {A : Type} (a : A) : io A := fun fs => (inr a, fs).

Definition raise {A : Type} (e : exn) : io A := fun fs => (inl e, fs).

Definition bind {A B : Type} (m : io A) (k : A -> io B) : io B :=
  fun fs =>
    match m fs with
    | (inl e, fs') => (inl e, fs')
    | (inr a, fs') => k a fs'
    end.

(** [os.makedirs(d, exist_ok=True)] *)
Definition makedirs (d : string) : io unit :=
  fun fs =>
    (inr tt,
     if existsb (String.eqb d) (dirs fs) then fs
     else {| dirs := d :: dirs fs; files := files fs |}).

(** Opening [path] with mode "w" and writing [a]: an earlier file of
    that name is replaced. *)
Definition write_file (path : string) (a : artifact) : io unit :=
  fun fs =>
    (inr tt,
     {| dirs := dirs fs;
        files := (path, a)
                 :: filter (fun pa => negb (String.eqb (fst pa) path))
                           (files fs) |}).

Definition read_file (path : string) (fs : filesystem) : option artifact :=
  option_map snd (find (fun pa => String.eqb (fst pa) path) (files fs)).

End IO.
Import IO.

Notation "x <- m ;; k" := (bind m (fun x => k))
  (at level 61, m at next level, right associativity).
Notation "m ;; k" := (bind m (fun _ => k))
  (at level 61, right associativity).

(** [os.path.basename] *)
Fixpoint basename_from (acc p : string) : string :=
  match p with
  | EmptyString => acc
  | String c p' =>
      if Ascii.eqb c "/"%char then basename_from EmptyString p'
      else basename_from (acc ++ String c EmptyString)%string p'
  end.

Definition basename (p : string) : string := basename_from EmptyString p.

(** The acquisition loop of [main].  The two collaborators are
    parameters: [ensure_oisst_file] gives the local path of a day's
    file or [None], [compute_jeju_mean_sst] gives the regional mean or
    [None] when it raises. *)
Definition acquire (ensure_oisst_file : Z -> option string)
                   (compute_jeju_mean_sst : string -> option float64)
                   (days : list Z) : list daily_row :=
  flat_map
    (fun day =>
       match ensure_oisst_file day with
       | None => []
       | Some nc_path =>
           match compute_jeju_mean_sst nc_path with
           | Some t => [ {| o_date := day;
                            o_file := basename nc_path;
                            o_T_t := t |} ]
           | None => []
           end
       end)
    days.

(** [main] from the emptiness test on [rows] to its end; what it prints
    is not modelled. *)
Definition export (rows : list daily_row) : io unit :=
  match rows with
  | [] => raise (RuntimeError "No processed days. Check network/URL/permissions.")
  | _ :: _ =>
      let df_hri := build_hri rows in
      makedirs OUT_DIR ;;
      write_file OUT_HRI_CSV (CsvFile df_hri) ;;
      let triggered := filter trigger df_hri in
      let trigger_list := map to_record triggered in
      write_file OUT_TRIGGER_LIST_JSON (JsonFile (JArr trigger_list)) ;;
      if (0 <? Z.of_nat (List.length trigger_list)) then
        match filter trigger df_hri with
        | first_trigger_row :: _ =>
            write_file OUT_FINAL_EVENT_JSON
                       (JsonFile (build_final_event first_trigger_row))
        | [] => raise IndexError
        end
      else
        write_file OUT_FINAL_EVENT_JSON (JsonFile no_trigger_event)
  end.

Definition main (ensure_oisst_file : Z -> option string)
                (compute_jeju_mean_sst : string -> option float64) : io unit :=
  export (acquire ensure_oisst_file compute_jeju_mean_sst
                  (daterange start_day end_day)).

(* ================================================================== *)
(** ** Auxiliary definitions used in the statements *)

(** Ascending date order of an input frame and of an output frame. *)
Definition date_ascending (df : list daily_row) : Prop :=
  StronglySorted (fun a b => o_date a <= o_date b) df.

Definition rows_ascending (out : list hri_row) : Prop :=
  StronglySorted (fun a b => date a <= date b) out.

(** [D_con(t-1)], with [D_con(-1) = 0]. *)
Definition D_con_before (out : list hri_row) (t : nat) : Z :=
  match t with
  | O => 0
  | S t' => match nth_error out t' with
            | Some r => D_con r
            | None => 0
            end
  end.

(** [T_{t-1}], absent on the first day. *)
Definition T_before (df : list daily_row) (t : nat) : option float64 :=
  match t with
  | O => None
  | S t' => option_map o_T_t (nth_error df t')
  end.

(** [V_var] as the source computes it from the previous temperature. *)
Definition v_var_of (prev : option float64) (t : float64) : float64 :=
  match prev with
  | None => Fin 0
  | Some p => fillna (fabs (fsub t p)) (Fin 0)
  end.

(** [V_var] in the words of the specification: the absolute difference
    if both temperatures are finite, else 0.0. *)
Definition spec_V_var (prev : option float64) (t : float64) : float64 :=
  match prev with
  | None => Fin 0
  | Some p => if isfinite t && isfinite p then fabs (fsub t p) else Fin 0
  end.

(** Neither the day's temperature nor the previous one is infinite. *)
Definition no_infinity (prev : option float64) (t : float64) : bool :=
  negb (isinf t)
  && match prev with
     | Some p => negb (isinf p)
     | None => true
     end.

(** The pass of [build_hri] over an already sorted frame as one left
    fold carrying the streak counter and the previous temperature. *)
Fixpoint pass (streak : Z) (prev : option float64) (df : list daily_row)
  : list hri_row :=
  match df with
  | [] => []
  | o :: df' =>
      let d := if qualifies (o_T_t o) then streak + 1 else 0 in
      add_columns (o, (d, v_var_of prev (o_T_t o)))
        :: pass d (Some (o_T_t o)) df'
  end.

(** The decision table of the specification, one row per line, and its
    evaluation in order with the first match winning. *)
Definition warning_duration_days : Z := 3.

Definition spec_decision_table : list ((float64 -> Z -> bool) * risk_level) :=
  [ (fun t _ => negb (isfinite t), UNKNOWN);
    (fun t _ => flt t T_BASE, NORMAL);
    (fun t d => fge t T_BASE && (d <? warning_duration_days), WATCH);
    (fun t d => (warning_duration_days <=? d) && flt t SEVERE_TEMP, WARNING);
    (fun t d => (warning_duration_days <=? d) && fge t SEVERE_TEMP, SEVERE) ].

Fixpoint first_match (table : list ((float64 -> Z -> bool) * risk_level))
                     (t : float64) (d : Z) : option risk_level :=
  match table with
  | [] => None
  | (cond, l) :: table' => if cond t d then Some l else first_match table' t d
  end.

(** The decision block of an event payload. *)
Definition decision_of (ev : json) (k : string) : option json :=
  match get "decision" ev with
  | Some d => get k d
  | None => None
  end.

Definition empty_fs : filesystem := {| dirs := []; files := [] |}.

(** The payload [main] writes to the final-event file, given the frame
    returned by [build_hri]. *)
Definition final_event_of (df_hri : list hri_row) : json :=
  match filter trigger df_hri with
  | first_trigger_row :: _ => build_final_event first_trigger_row
  | [] => no_trigger_event
  end.

(** The metrics block holding the values of a row. *)
Definition metrics_of (r : hri_row) : json :=
  JObj [ ("T_t", JFloat (T_t r));
         ("D_con", JInt (D_con r));
         ("V_var", JFloat (V_var r));
         ("HRI", JFloat (HRI r)) ].

(** The message of the exception raised on an empty series. *)
Definition no_days_message : string :=
  "No processed days. Check network/URL/permissions.".

(** The series of the specification's scenario A. *)
Definition scenario_A : list daily_row :=
  [ mk_daily 0 "d1" (Fin 27); mk_daily 1 "d2" (Fin 28.5);
    mk_daily 2 "d3" (Fin 29) ].

(** Three days given out of order: 27, then 31, then 40 degrees. *)
Definition heat_wave : list daily_row :=
  [ mk_daily 2 "d3" (Fin 40); mk_daily 0 "d1" (Fin 27);
    mk_daily 1 "d2" (Fin 31) ].

(* ================================================================== *)
(** ** Data access *)

Module Acquisition.

Definition DATA_DIR : string := "D:\oisst_nc".

(** [day.strftime("%Y%m%d")], [day.strftime("%Y")] and
    [day.strftime("%m")]. *)
Definition yyyymmdd_of (day : Z) : string :=
  let '(y, m, d) := civil_from_days day in
  (dec4 y ++ dec2 m ++ dec2 d)%string.

Definition year_of (day : Z) : string :=
  let '(y, _, _) := civil_from_days day in dec4 y.

Definition month_of (day : Z) : string :=
  let '(_, m, _) := civil_from_days day in dec2 m.

Definition oisst_name (day : Z) : string :=
  ("oisst-avhrr-v02r01." ++ yyyymmdd_of day ++ ".nc")%string.

(** [OISST_URL_TEMPLATE.format(...)] *)
Definition oisst_url (day : Z) : string :=
  ("https://www.ncei.noaa.gov/data/sea-surface-temperature-optimum-interpolation/v2.1/access/avhrr/"
   ++ year_of day ++ month_of day
   ++ "/oisst-avhrr-v02r01." ++ yyyymmdd_of day ++ ".nc")%string.

Definition local_path (day : Z) : string := path_join DATA_DIR (oisst_name day).

(** The directories and files of the download folder. *)
Record data_store : Type := mk_store {
  d_dirs : list string;
  d_files : list string
}.

(** [os.path.exists] on a file path. *)
Definition path_exists (p : string) (st : data_store) : bool :=
  existsb (String.eqb p) (d_files st).

Definition store_makedirs (d : string) (st : data_store) : data_store :=
  if existsb (String.eqb d) (d_dirs st) then st
  else {| d_dirs := d :: d_dirs st; d_files := d_files st |}.

(** [ensure_oisst_file].  [urlretrieve url path] is the network: it
    changes the store and tells whether it returned ([true]) or raised
    ([false]). *)
Definition ensure_oisst_file
           (urlretrieve : string -> string -> data_store -> bool * data_store)
           (day : Z) (st : data_store) : option string * data_store :=
  let st1 := store_makedirs DATA_DIR st in
  if path_exists (local_path day) st1 then (Some (local_path day), st1)
  else
    let '(ok, st2) := urlretrieve (oisst_url day) (local_path day) st1 in
    if ok then (Some (local_path day), st2) else (None, st2).

(** A daily file holds one time step and one depth level, so a data
    variable is a latitude by longitude grid; a coordinate is a list. *)
Record dataset : Type := mk_dataset {
  data_vars : list (string * list (list float64));
  coords : list (string * list float64)
}.

Inductive error : Type :=
| ValueError
| KeyError.

Definition lookup {A : Type} (k : string) (l : list (string * A)) : option A :=
  option_map snd (find (fun kv => String.eqb (fst kv) k) l).

(** [(x >= lo) & (x <= hi)] *)
Definition between (lo hi x : float64) : bool := fge x lo && fge hi x.

(** [sst.where(cond)]: a cell outside the region becomes NaN. *)
Definition where_roi (lat lon : list float64) (sst : list (list float64))
  : list (list float64) :=
  map (fun lr : float64 * list float64 =>
         map (fun lv : float64 * float64 =>
                if between JEJU_LAT_MIN JEJU_LAT_MAX (fst lr)
                   && between JEJU_LON_MIN JEJU_LON_MAX (fst lv)
                then snd lv else NaN)
             (combine lon (snd lr)))
      (combine lat sst).

(** Division of a sum by a positive count. *)
Definition fdiv_count (x : float64) (n : nat) : float64 :=
  match x with
  | Fin a => Fin (a / INR n)
  | other => other
  end.

(** [mean(skipna=True)] over every cell: NaN when no cell is left. *)
Definition mean_skipna (grid : list (list float64)) : float64 :=
  let valid := filter (fun v => negb (isnan v)) (List.concat grid) in
  match valid with
  | [] => NaN
  | _ :: _ => fdiv_count (fold_left fadd valid (Fin 0)) (List.length valid)
  end.

(** [ds[short] if short in ds.coords else ds[long]].  The model covers
    files whose latitude and longitude are coordinate variables: the
    long name is looked up among the coordinates, and a long name that
    is only a dimension or a data variable is outside the model. *)
Definition coordinate (short long : string) (ds : dataset)
  : option (list float64) :=
  match lookup short (coords ds) with
  | Some c => Some c
  | None => lookup long (coords ds)
  end.

Definition compute_jeju_mean_sst (ds : dataset) : error + float64 :=
  match lookup "sst" (data_vars ds) with
  | None => inl ValueError
  | Some sst =>
      match coordinate "lat" "latitude" ds with
      | None => inl KeyError
      | Some lat =>
          match coordinate "lon" "longitude" ds with
          | None => inl KeyError
          | Some lon => inr (mean_skipna (where_roi lat lon sst))
          end
      end
  end.

(** The parse step as [main] sees it: [None] when opening the file or
    the computation raises. *)
Definition parse (open_dataset : string -> option dataset) (nc_path : string)
  : option float64 :=
  match open_dataset nc_path with
  | None => None
  | Some ds => match compute_jeju_mean_sst ds with
               | inl _ => None
               | inr t => Some t
               end
  end.

(** The mean of a list of values, NaN for the empty list. *)
Definition mean_of (values : list float64) : float64 :=
  match values with
  | [] => NaN
  | _ :: _ => fdiv_count (fold_left fadd values (Fin 0)) (List.length values)
  end.

(** The cells of the region that hold a value. *)
Definition roi_values (lat lon : list float64) (sst : list (list float64))
  : list float64 :=
  flat_map (fun lr : float64 * list float64 =>
              if between JEJU_LAT_MIN JEJU_LAT_MAX (fst lr)
              then flat_map (fun lv : float64 * float64 =>
                               if between JEJU_LON_MIN JEJU_LON_MAX (fst lv)
                                  && negb (isnan (snd lv))
                               then [snd lv] else [])
                            (combine lon (snd lr))
              else [])
           (combine lat sst).

End Acquisition.

(* ================================================================== *)
(** ** Definitions used in the further statements *)

(** Severity order of the levels of a finite temperature. *)
Definition level_rank (l : risk_level) : Z :=
  match l with
  | UNKNOWN => -1
  | NORMAL => 0
  | WATCH => 1
  | WARNING => 2
  | SEVERE => 3
  end.

Fixpoint take_while {A : Type} (p : A -> bool) (l : list A) : list A :=
  match l with
  | [] => []
  | x :: l' => if p x then x :: take_while p l' else []
  end.

(** The number of qualifying temperatures at the end of [ts]. *)
Definition streak_ending (ts : list float64) : nat :=
  List.length (take_while qualifies (rev ts)).

(** The columns [build_hri] takes over from its input. *)
Definition input_columns (r : hri_row) : daily_row :=
  {| o_date := date r; o_file := file r; o_T_t := T_t r |}.

(** The columns [build_hri] computes, with the temperature they are
    computed from. *)
Definition computed_columns (r : hri_row)
  : float64 * Z * float64 * float64 * bool * risk_level :=
  (T_t r, D_con r, V_var r, HRI r, trigger r, level r).

(** The three paths [main] writes. *)
Definition output_paths : list string :=
  [OUT_HRI_CSV; OUT_TRIGGER_LIST_JSON; OUT_FINAL_EVENT_JSON].

(** A member of the metrics block of an event payload. *)
Definition metric_of (ev : json) (k : string) : option json :=
  match get "metrics" ev with
  | Some m => get k m
  | None => None
  end.

(** No separator in a file name. *)
Fixpoint no_separator (s : string) : bool :=
  match s with
  | EmptyString => true
  | String c s' => negb (Ascii.eqb c "/"%char) && no_separator s'
  end.

(* ================================================================== *)
(** ** Facts about the float operations *)

Section FloatFacts.

Lemma Rleb_true (x y : R) : Rleb x y = true <-> (x <= y)%R.
Proof. unfold Rleb; destruct (Rle_dec x y); split; intros; auto; discriminate. Qed.

Lemma Rleb_false (x y : R) : Rleb x y = false <-> (y < x)%R.
Proof.
  unfold Rleb; destruct (Rle_dec x y); split; intros; auto; try discriminate; lra.
Qed.

Lemma Rltb_true (x y : R) : Rltb x y = true <-> (x < y)%R.
Proof. unfold Rltb; destruct (Rlt_dec x y); split; intros; auto; discriminate. Qed.

Lemma Rltb_false (x y : R) : Rltb x y = false <-> (y <= x)%R.
Proof.
  unfold Rltb; destruct (Rlt_dec x y); split; intros; auto; try discriminate; lra.
Qed.

Lemma Rltb_negb_Rleb (x y : R) : Rltb x y = negb (Rleb y x).
Proof.
  destruct (Rleb y x) eqn:E; simpl.
  - apply Rltb_false, Rleb_true, E.
  - apply Rltb_true, Rleb_false, E.
Qed.

(** On a finite left operand and a finite bound, [<] is the negation
    of [>=]. *)
Lemma flt_negb_fge (t : float64) (b : R) :
  isfinite t = true -> flt t (Fin b) = negb (fge t (Fin b)).
Proof.
  destruct t; simpl; try discriminate. intros _. apply Rltb_negb_Rleb.
Qed.

Lemma fge_Fin (a b : R) : fge (Fin a) (Fin b) = true <-> (b <= a)%R.
Proof. simpl. apply Rleb_true. Qed.

Lemma flt_Fin (a b : R) : flt (Fin a) (Fin b) = true <-> (a < b)%R.
Proof. simpl. apply Rltb_true. Qed.

Lemma qualifies_Fin (a : R) : qualifies (Fin a) = true <-> (28 <= a)%R.
Proof. unfold qualifies, T_BASE. simpl. apply Rleb_true. Qed.

Lemma qualifies_not_finite (t : float64) : isfinite t = false -> qualifies t = false.
Proof. unfold qualifies. intros ->. reflexivity. Qed.

End FloatFacts.

(* ================================================================== *)
(** ** Level classification *)

Section LevelClassification.

Ltac level_cases :=
  unfold risk_level_from_T_D, T_BASE, SEVERE_TEMP;
  simpl;
  unfold warning_duration_days in *;
  repeat match goal with
         | |- context [Rltb ?x ?y] =>
             let E := fresh "E" in
             destruct (Rltb x y) eqn:E;
             [apply Rltb_true in E | apply Rltb_false in E]
         | |- context [Rleb ?x ?y] =>
             let E := fresh "E" in
             destruct (Rleb x y) eqn:E;
             [apply Rleb_true in E | apply Rleb_false in E]
         | |- context [?a <? ?b] =>
             let E := fresh "E" in
             destruct (Z.ltb_spec a b) as [E | E]
         | |- context [?a <=? ?b] =>
             let E := fresh "E" in
             destruct (Z.leb_spec a b) as [E | E]
         end;
  simpl; try reflexivity; try discriminate; try lia; try lra.

(** The classifier is the specification's table read top to bottom. *)
Lemma risk_level_first_match (T : float64) (d : Z) :
  first_match spec_decision_table T d = Some (risk_level_from_T_D T d).
Proof. destruct T; level_cases. Qed.

Lemma risk_level_not_finite (T : float64) (d : Z) :
  isfinite T = false -> risk_level_from_T_D T d = UNKNOWN.
Proof. unfold risk_level_from_T_D. intros ->. reflexivity. Qed.

(** C2. For every pair (T_t, D_con), with T_base = 28.0, SEVERE_TEMP =
    30.0 and warning_duration_days = 3, the classifier returns what the
    decision table gives when its rows are tried in order and the first
    match wins: UNKNOWN for a non-finite T_t; NORMAL for T_t < T_base;
    WATCH for T_t >= T_base with D_con < 3; WARNING for D_con >= 3 with
    T_t < SEVERE_TEMP; SEVERE for D_con >= 3 with T_t >= SEVERE_TEMP.
    The severe boundary is inclusive: (29.5, 3) is WARNING and
    (30.0, 3) is SEVERE. *)
Theorem risk_level_decision_table (T : float64) (d : Z) :
  first_match spec_decision_table T d = Some (risk_level_from_T_D T d)
  /\ (isfinite T = false -> risk_level_from_T_D T d = UNKNOWN)
  /\ (isfinite T = true -> flt T T_BASE = true ->
      risk_level_from_T_D T d = NORMAL)
  /\ (isfinite T = true -> fge T T_BASE = true -> d < warning_duration_days ->
      risk_level_from_T_D T d = WATCH)
  /\ (isfinite T = true -> fge T T_BASE = true -> warning_duration_days <= d ->
      flt T SEVERE_TEMP = true ->
      risk_level_from_T_D T d = WARNING)
  /\ (isfinite T = true -> warning_duration_days <= d ->
      fge T SEVERE_TEMP = true ->
      risk_level_from_T_D T d = SEVERE)
  /\ risk_level_from_T_D (Fin 29.5) 3 = WARNING
  /\ risk_level_from_T_D (Fin 30) 3 = SEVERE.
Proof.
  split; [apply risk_level_first_match|].
  split; [apply risk_level_not_finite|].
  repeat split.
  - destruct T; simpl; try discriminate. intros _ H.
    apply flt_Fin in H. level_cases.
  - destruct T; simpl; try discriminate. intros _ H Hd.
    apply Rleb_true in H. revert Hd. level_cases.
  - destruct T; simpl; try discriminate. intros _ H Hd H'.
    apply Rleb_true in H. apply Rltb_true in H'. revert Hd. level_cases.
  - destruct T; simpl; try discriminate. intros _ Hd H.
    apply Rleb_true in H. revert Hd. level_cases.
  - level_cases.
  - level_cases.
Qed.

Lemma risk_level_decision_table_witness :
  risk_level_from_T_D (Fin 31) 5 = SEVERE.
Proof.
  apply (risk_level_decision_table (Fin 31) 5).
  - reflexivity.
  - unfold warning_duration_days. lia.
  - apply fge_Fin. lra.
Defined.

End LevelClassification.

(* ================================================================== *)
(** ** Sorting by date *)

Section Sorting.

Lemma insert_by_date_perm (r : daily_row) (l : list daily_row) :
  Permutation (insert_by_date r l) (r :: l).
Proof.
  induction l as [|x l IH]; simpl.
  - apply Permutation_refl.
  - destruct (o_date r <=? o_date x).
    + apply Permutation_refl.
    + eapply perm_trans; [apply perm_skip, IH | apply perm_swap].
Qed.

Lemma sort_values_perm (df : list daily_row) : Permutation (sort_values df) df.
Proof.
  induction df as [|r df IH]; simpl.
  - constructor.
  - eapply perm_trans; [apply insert_by_date_perm | apply perm_skip, IH].
Qed.

Lemma sort_values_length (df : list daily_row) :
  List.length (sort_values df) = List.length df.
Proof. apply Permutation_length, sort_values_perm. Qed.

Lemma insert_by_date_sorted (r : daily_row) (l : list daily_row) :
  date_ascending l -> date_ascending (insert_by_date r l).
Proof.
  unfold date_ascending.
  induction 1 as [|x l Hl IH Hx]; simpl.
  - repeat constructor.
  - destruct (Z.leb_spec (o_date r) (o_date x)) as [Hle | Hgt].
    + constructor; [constructor; assumption|].
      constructor; [assumption|].
      eapply Forall_impl; [|exact Hx]. simpl. intros; lia.
    + constructor; [assumption|].
      eapply Permutation_Forall;
        [apply Permutation_sym, insert_by_date_perm|].
      constructor; [lia | assumption].
Qed.

Lemma sort_values_sorted (df : list daily_row) : date_ascending (sort_values df).
Proof.
  induction df as [|r df IH]; simpl.
  - constructor.
  - apply insert_by_date_sorted, IH.
Qed.

(** Sorting leaves a date-ascending frame as it is. *)
Lemma sort_values_ascending (df : list daily_row) :
  date_ascending df -> sort_values df = df.
Proof.
  unfold date_ascending.
  induction 1 as [|x l Hl IH Hx]; simpl; [reflexivity|].
  fold (sort_values l). rewrite IH.
  destruct Hx as [|y l' Hy _]; simpl; [reflexivity|].
  destruct (Z.leb_spec (o_date x) (o_date y)); [reflexivity | lia].
Qed.

(** Two frames sorted by pairwise distinct dates that hold the same
    rows are the same frame. *)
Lemma strictly_sorted_perm_eq (l1 l2 : list daily_row) :
  StronglySorted (fun a b => o_date a < o_date b) l1 ->
  StronglySorted (fun a b => o_date a < o_date b) l2 ->
  Permutation l1 l2 -> l1 = l2.
Proof.
  intros H1. revert l2.
  induction H1 as [|x l1 Hs1 IH Hx]; intros l2 H2 HP.
  - apply Permutation_nil in HP. now subst.
  - destruct H2 as [|y l2 Hs2 Hy].
    + apply Permutation_sym, Permutation_nil in HP. discriminate.
    + assert (x = y) as ->.
      { assert (In x (y :: l2)) as Hin1
          by (eapply Permutation_in; [exact HP | now left]).
        assert (In y (x :: l1)) as Hin2
          by (eapply Permutation_in; [apply Permutation_sym, HP | now left]).
        destruct Hin1 as [-> | Hin1]; [reflexivity|].
        destruct Hin2 as [-> | Hin2]; [reflexivity|].
        rewrite Forall_forall in Hx, Hy.
        specialize (Hx _ Hin2). specialize (Hy _ Hin1). lia. }
      f_equal. apply IH; [assumption|].
      eapply Permutation_cons_inv, HP.
Qed.

Lemma ascending_nodup_strict (l : list daily_row) :
  date_ascending l -> NoDup (map o_date l) ->
  StronglySorted (fun a b => o_date a < o_date b) l.
Proof.
  unfold date_ascending.
  induction 1 as [|x l Hl IH Hx]; intros Hnd; [constructor|].
  simpl in Hnd. inversion Hnd as [|? ? Hnotin Hnd']; subst.
  constructor; [apply IH, Hnd'|].
  rewrite Forall_forall in *. intros y Hy.
  specialize (Hx _ Hy).
  assert (o_date x <> o_date y).
  { intros E. apply Hnotin. rewrite E. apply in_map, Hy. }
  lia.
Qed.

End Sorting.

(* ================================================================== *)
(** ** The engine as a single pass *)

Section Engine.

Lemma columns_pass (df : list daily_row) (streak : Z) (p : float64) :
  map add_columns
      (combine df
         (combine (dcon_loop streak (map o_T_t df))
                  (map (fun d => fillna (fabs d) (Fin 0))
                       (diff_from p (map o_T_t df)))))
  = pass streak (Some p) df.
Proof.
  revert streak p.
  induction df as [|o df IH]; intros streak p; simpl; [reflexivity|].
  rewrite IH. reflexivity.
Qed.

(** [build_hri] sorts and then runs the pass from an empty history. *)
Lemma build_hri_pass (df : list daily_row) :
  build_hri df = pass 0 None (sort_values df).
Proof.
  unfold build_hri, v_var_column.
  destruct (sort_values df) as [|o s]; simpl; [reflexivity|].
  rewrite columns_pass. reflexivity.
Qed.

Lemma pass_length (df : list daily_row) (streak : Z) (prev : option float64) :
  List.length (pass streak prev df) = List.length df.
Proof.
  revert streak prev.
  induction df as [|o df IH]; intros; simpl; [reflexivity|].
  now rewrite IH.
Qed.

Lemma pass_dates (df : list daily_row) (streak : Z) (prev : option float64) :
  map date (pass streak prev df) = map o_date df.
Proof.
  revert streak prev.
  induction df as [|o df IH]; intros; simpl; [reflexivity|].
  now rewrite IH.
Qed.

Lemma pass_temperatures (df : list daily_row) (streak : Z) (prev : option float64) :
  map T_t (pass streak prev df) = map o_T_t df.
Proof.
  revert streak prev.
  induction df as [|o df IH]; intros; simpl; [reflexivity|].
  now rewrite IH.
Qed.

(** Row [t] of the pass, from the observation of day [t], the previous
    row's streak and the previous observation's temperature. *)
Lemma pass_nth (df : list daily_row) :
  forall (streak : Z) (prev : option float64) (t : nat) (o : daily_row),
    nth_error df t = Some o ->
    let out := pass streak prev df in
    let d_prev := match t with
                  | O => streak
                  | S t' => match nth_error out t' with
                            | Some r => D_con r
                            | None => 0
                            end
                  end in
    let t_prev := match t with
                  | O => prev
                  | S t' => option_map o_T_t (nth_error df t')
                  end in
    nth_error out t
    = Some (add_columns
              (o, (if qualifies (o_T_t o) then d_prev + 1 else 0,
                   v_var_of t_prev (o_T_t o)))).
Proof.
  induction df as [|o0 df IH]; intros streak prev t o Ht.
  - destruct t; discriminate.
  - destruct t as [|t]; simpl in Ht.
    + injection Ht as ->. reflexivity.
    + specialize (IH (if qualifies (o_T_t o0) then streak + 1 else 0)
                     (Some (o_T_t o0)) t o Ht).
      simpl in *. rewrite IH.
      destruct t as [|t']; reflexivity.
Qed.

(** Every row of the pass comes from the observation at its index. *)
Lemma pass_nth_inv (df : list daily_row) (streak : Z) (prev : option float64)
      (t : nat) (r : hri_row) :
  nth_error (pass streak prev df) t = Some r ->
  exists o, nth_error df t = Some o.
Proof.
  intros H.
  destruct (nth_error df t) as [o|] eqn:E; [now exists o|].
  apply nth_error_None in E.
  assert (nth_error (pass streak prev df) t <> None) as Hn by congruence.
  apply nth_error_Some in Hn. rewrite pass_length in Hn. lia.
Qed.

(** The elementwise columns of any row of the pass. *)
Lemma pass_row_columns (df : list daily_row) :
  forall (streak : Z) (prev : option float64) (r : hri_row),
    In r (pass streak prev df) ->
    HRI r = hri_formula (T_t r) (D_con r) (V_var r)
    /\ trigger r = fge (HRI r) HRI_THRESHOLD
    /\ level r = risk_level_from_T_D (T_t r) (D_con r).
Proof.
  induction df as [|o df IH]; intros streak prev r Hin; simpl in Hin.
  - contradiction.
  - destruct Hin as [<- | Hin]; [simpl; auto | eapply IH, Hin].
Qed.

Lemma build_hri_length (df : list daily_row) :
  List.length (build_hri df) = List.length df.
Proof. rewrite build_hri_pass, pass_length. apply sort_values_length. Qed.

Lemma build_hri_dates (df : list daily_row) :
  map date (build_hri df) = map o_date (sort_values df).
Proof. rewrite build_hri_pass. apply pass_dates. Qed.

Lemma build_hri_ascending (df : list daily_row) : rows_ascending (build_hri df).
Proof.
  unfold rows_ascending.
  pose proof (sort_values_sorted df) as Hs. unfold date_ascending in Hs.
  rewrite build_hri_pass.
  generalize 0 (@None float64).
  induction Hs as [|o s Hs IH Ho]; intros streak prev; simpl; [constructor|].
  constructor; [apply IH|].
  rewrite Forall_forall in *. intros r Hr.
  apply (in_map date) in Hr. rewrite pass_dates in Hr.
  apply in_map_iff in Hr as (o' & <- & Ho'). simpl. apply Ho, Ho'.
Qed.

End Engine.

(* ================================================================== *)
(** ** Rows of [build_hri] *)

Section Rows.

(** Row [t] of the output, from row [t] of the sorted frame. *)
Lemma build_hri_nth (df : list daily_row) (t : nat) (r : hri_row) :
  nth_error (build_hri df) t = Some r ->
  exists o,
    nth_error (sort_values df) t = Some o
    /\ r = add_columns
             (o, (if qualifies (o_T_t o)
                  then D_con_before (build_hri df) t + 1 else 0,
                  v_var_of (T_before (sort_values df) t) (o_T_t o))).
Proof.
  rewrite build_hri_pass. intros H.
  destruct (pass_nth_inv _ _ _ _ _ H) as [o Ho].
  exists o. split; [exact Ho|].
  pose proof (pass_nth _ 0 None t o Ho) as Hn. simpl in Hn.
  rewrite Hn in H. injection H as <-.
  destruct t; reflexivity.
Qed.

Lemma build_hri_nth_sorted (df : list daily_row) (t : nat) (o : daily_row) :
  nth_error (sort_values df) t = Some o ->
  exists r, nth_error (build_hri df) t = Some r.
Proof.
  intros Ho. rewrite build_hri_pass.
  pose proof (pass_nth _ 0 None t o Ho) as Hn. simpl in Hn.
  eexists. exact Hn.
Qed.

Lemma build_hri_row_columns (df : list daily_row) (r : hri_row) :
  In r (build_hri df) ->
  HRI r = hri_formula (T_t r) (D_con r) (V_var r)
  /\ trigger r = fge (HRI r) HRI_THRESHOLD
  /\ level r = risk_level_from_T_D (T_t r) (D_con r).
Proof. rewrite build_hri_pass. apply pass_row_columns. Qed.

(** The streak recurrence between two consecutive rows. *)
Lemma D_con_step (df : list daily_row) (t : nat) (r1 r2 : hri_row) :
  nth_error (build_hri df) t = Some r1 ->
  nth_error (build_hri df) (S t) = Some r2 ->
  D_con r2 = if qualifies (T_t r2) then D_con r1 + 1 else 0.
Proof.
  intros H1 H2.
  destruct (build_hri_nth _ _ _ H2) as (o & _ & ->).
  simpl. rewrite H1. reflexivity.
Qed.

Lemma D_con_first (df : list daily_row) (r : hri_row) :
  nth_error (build_hri df) 0 = Some r ->
  D_con r = if qualifies (T_t r) then 1 else 0.
Proof.
  intros H. destruct (build_hri_nth _ _ _ H) as (o & _ & ->). reflexivity.
Qed.

Lemma D_con_reset (df : list daily_row) (t : nat) (r : hri_row) :
  nth_error (build_hri df) t = Some r ->
  qualifies (T_t r) = false -> D_con r = 0.
Proof.
  intros H. destruct (build_hri_nth _ _ _ H) as (o & _ & ->).
  simpl. intros ->. reflexivity.
Qed.

Lemma D_con_nonneg (df : list daily_row) :
  forall (t : nat) (r : hri_row),
    nth_error (build_hri df) t = Some r -> 0 <= D_con r.
Proof.
  induction t as [|t IH]; intros r H.
  - rewrite (D_con_first _ _ H). destruct (qualifies (T_t r)); lia.
  - destruct (nth_error (build_hri df) t) as [r1|] eqn:E.
    + rewrite (D_con_step _ _ _ _ E H). specialize (IH _ eq_refl).
      destruct (qualifies (T_t r)); lia.
    + apply nth_error_None in E.
      assert (nth_error (build_hri df) (S t) <> None) as Hn by congruence.
      apply nth_error_Some in Hn. lia.
Qed.

End Rows.

(** Settles the comparisons between concrete reals left by evaluation. *)
Ltac float_decide :=
  repeat match goal with
         | |- context [Rleb ?x ?y] =>
             first [ rewrite (proj2 (Rleb_true x y)) by lra
                   | rewrite (proj2 (Rleb_false x y)) by lra ]
         | |- context [Rltb ?x ?y] =>
             first [ rewrite (proj2 (Rltb_true x y)) by lra
                   | rewrite (proj2 (Rltb_false x y)) by lra ]
         end.

(* ================================================================== *)
(** ** The streak counter *)

Section Streak.

Variable df : list daily_row.

(** Along consecutive qualifying days the counter grows by one a day. *)
Lemma D_con_run (t : nat) (r : hri_row) :
  nth_error (build_hri df) t = Some r ->
  forall (k : nat) (rk : hri_row),
    nth_error (build_hri df) (t + k) = Some rk ->
    (forall i ri, (1 <= i <= k)%nat ->
                  nth_error (build_hri df) (t + i) = Some ri ->
                  qualifies (T_t ri) = true) ->
    D_con rk = D_con r + Z.of_nat k.
Proof.
  intros Hr. induction k as [|k IH]; intros rk Hk Hq.
  - rewrite Nat.add_0_r in Hk. rewrite Hr in Hk. injection Hk as <-. lia.
  - destruct (nth_error (build_hri df) (t + k)) as [r1|] eqn:E.
    + rewrite Nat.add_succ_r in Hk.
      rewrite (D_con_step _ _ _ _ E Hk).
      rewrite (Hq (S k) rk); [|lia|now rewrite Nat.add_succ_r].
      rewrite (IH r1 eq_refl); [lia|].
      intros i ri Hi. apply Hq. lia.
    + apply nth_error_None in E.
      assert (nth_error (build_hri df) (t + S k) <> None) as Hn by congruence.
      apply nth_error_Some in Hn. lia.
Qed.

(** C4. Within a run of consecutive days whose T_t is finite and at
    least T_base, D_con grows by exactly one each day (so it is
    strictly increasing, hence non-decreasing, along the run, and [k]
    days into the run it is [k] more than at its start); the first day
    of a maximal run has D_con = 1; and a day on which the run is
    broken (T_t missing or below T_base) has D_con = 0. *)
Theorem D_con_within_runs (t : nat) (r : hri_row) :
  nth_error (build_hri df) t = Some r ->
  (qualifies (T_t r) = false -> D_con r = 0)
  /\ (qualifies (T_t r) = true -> D_con_before (build_hri df) t = 0 ->
      D_con r = 1)
  /\ (forall r', nth_error (build_hri df) (S t) = Some r' ->
                 qualifies (T_t r') = true ->
                 D_con r' = D_con r + 1 /\ D_con r < D_con r')
  /\ (forall r', nth_error (build_hri df) (S t) = Some r' ->
                 qualifies (T_t r') = false -> D_con r' = 0)
  /\ (forall k rk,
         nth_error (build_hri df) (t + k) = Some rk ->
         (forall i ri, (1 <= i <= k)%nat ->
                       nth_error (build_hri df) (t + i) = Some ri ->
                       qualifies (T_t ri) = true) ->
         D_con rk = D_con r + Z.of_nat k /\ D_con r <= D_con rk).
Proof.
  intros Hr. repeat split.
  - apply (D_con_reset _ _ _ Hr).
  - intros Hq Hb.
    destruct (build_hri_nth _ _ _ Hr) as (o & _ & ->).
    simpl in *. rewrite Hq, Hb. reflexivity.
  - rewrite (D_con_step _ _ _ _ Hr H), H0. reflexivity.
  - rewrite (D_con_step _ _ _ _ Hr H), H0. lia.
  - intros r' Hr' Hq. apply (D_con_reset _ _ _ Hr' Hq).
  - apply (D_con_run _ _ Hr _ _ H H0).
  - rewrite (D_con_run _ _ Hr _ _ H H0). lia.
Qed.

End Streak.

Lemma D_con_within_runs_witness :
  exists r r',
    nth_error (build_hri [mk_daily 0 "a" (Fin 29); mk_daily 1 "b" (Fin 30)]) 0
    = Some r
    /\ nth_error (build_hri [mk_daily 0 "a" (Fin 29); mk_daily 1 "b" (Fin 30)]) 1
       = Some r'
    /\ D_con r' = D_con r + 1.
Proof.
  eexists. eexists.
  split; [reflexivity|]. split; [reflexivity|].
  eapply (D_con_within_runs
            [mk_daily 0 "a" (Fin 29); mk_daily 1 "b" (Fin 30)] 0).
  - reflexivity.
  - reflexivity.
  - cbn. unfold qualifies, T_BASE. cbn. float_decide. reflexivity.
Defined.

(* ================================================================== *)
(** ** The volatility term and the index *)

Section Metrics.

Lemma v_var_of_finite (a b : R) :
  v_var_of (Some (Fin b)) (Fin a) = Fin (Rabs (a - b)).
Proof. reflexivity. Qed.

Lemma v_var_of_nan (prev : option float64) (t : float64) :
  isnan t = true \/ prev = Some NaN -> v_var_of prev t = Fin 0.
Proof.
  intros [H | ->].
  - destruct t; try discriminate. destruct prev as [[| | |]|]; reflexivity.
  - destruct t; reflexivity.
Qed.

(** Away from infinite temperatures the source's [V_var] is the one
    the specification words describe. *)
Lemma v_var_of_spec (prev : option float64) (t : float64) :
  no_infinity prev t = true -> v_var_of prev t = spec_V_var prev t.
Proof.
  destruct prev as [[| | |b]|], t as [| | |a]; simpl;
    try discriminate; reflexivity.
Qed.

(** [V_var] is never NaN and never negative. *)
Lemma v_var_of_sign (prev : option float64) (t : float64) :
  v_var_of prev t = PInf
  \/ exists v, v_var_of prev t = Fin v /\ (0 <= v)%R.
Proof.
  destruct prev as [[| | |b]|], t as [| | |a]; simpl;
    try (left; reflexivity);
    try (right; exists 0%R; split; [reflexivity | lra]).
  right. eexists. split; [reflexivity | apply Rabs_pos].
Qed.

(** The logarithm's argument written as [D_con + 1]. *)
Lemma hri_formula_ln (t : float64) (d : Z) (v : float64) :
  hri_formula t d v
  = fadd (fadd (fmul ALPHA (fmaximum (Fin 0) (fsub t T_BASE)))
               (fmul BETA (flog (of_int (d + 1)))))
         (fmul GAMMA v).
Proof.
  unfold hri_formula, of_int. simpl. rewrite plus_IZR. reflexivity.
Qed.

Lemma hri_formula_nan (d : Z) (v : float64) : hri_formula NaN d v = NaN.
Proof. reflexivity. Qed.

Lemma ln_nonneg (x : R) : (1 <= x)%R -> (0 <= ln x)%R.
Proof.
  intros H. rewrite <- ln_1. destruct H as [H | <-].
  - left. apply ln_increasing; lra.
  - right. reflexivity.
Qed.

(** The index on finite operands, in real arithmetic. *)
Lemma hri_formula_finite (a : R) (d : Z) (v : R) :
  0 <= d ->
  hri_formula (Fin a) d (Fin v)
  = Fin (1 * Rmax 0 (a - 28) + 8 / 10 * ln (IZR (d + 1)) + 5 / 10 * v).
Proof.
  intros Hd. rewrite hri_formula_ln.
  unfold ALPHA, BETA, GAMMA, T_BASE, of_int. simpl.
  assert (1 <= IZR (d + 1))%R as H1 by (apply IZR_le; lia).
  rewrite (proj2 (Rltb_true 0 (IZR (d + 1)))) by lra.
  reflexivity.
Qed.

End Metrics.

(* ================================================================== *)
(** ** The engine's formulas *)

Section Formulas.

(** C1, as amended.  On a date-ascending series the row of day [t]
    carries the day's date and temperature;
    D_con(t) = D_con(t-1) + 1 if T_t is finite and T_t >= T_base, else
    0, with D_con(-1) = 0; V_var(t) is |T_t - T_{t-1}| computed on the
    floats with a NaN result replaced by 0.0, which is 0.0 on the first
    day, |T_t - T_{t-1}| when both are finite, and the specification's
    "else 0.0" whenever neither temperature is infinite;
    HRI(t) = alpha * max(0, T_t - T_base) + beta * ln(D_con(t) + 1)
    + gamma * V_var(t), which on finite operands is
    1.0 * max(0, T_t - 28) + 0.8 * ln(D_con(t) + 1) + 0.5 * V_var(t);
    and trigger(t) = (HRI(t) >= HRI_threshold). *)
Theorem build_hri_metrics (df : list daily_row) (t : nat) (o : daily_row) :
  date_ascending df ->
  nth_error df t = Some o ->
  exists r,
    nth_error (build_hri df) t = Some r
    /\ date r = o_date o
    /\ T_t r = o_T_t o
    /\ D_con r = (if isfinite (T_t r) && fge (T_t r) T_BASE
                  then D_con_before (build_hri df) t + 1 else 0)
    /\ V_var r = match T_before df t with
                 | None => Fin 0
                 | Some p => fillna (fabs (fsub (T_t r) p)) (Fin 0)
                 end
    /\ (t = O -> V_var r = Fin 0)
    /\ (forall a b, T_t r = Fin a -> T_before df t = Some (Fin b) ->
                    V_var r = Fin (Rabs (a - b)))
    /\ (no_infinity (T_before df t) (T_t r) = true ->
        V_var r = spec_V_var (T_before df t) (T_t r))
    /\ HRI r = fadd (fadd (fmul ALPHA (fmaximum (Fin 0) (fsub (T_t r) T_BASE)))
                          (fmul BETA (flog (of_int (D_con r + 1)))))
                    (fmul GAMMA (V_var r))
    /\ (forall a v, T_t r = Fin a -> V_var r = Fin v ->
                    HRI r = Fin (1 * Rmax 0 (a - 28)
                                 + 8 / 10 * ln (IZR (D_con r + 1))
                                 + 5 / 10 * v))
    /\ trigger r = fge (HRI r) HRI_THRESHOLD.
Proof.
  intros Hasc Ho.
  pose proof (sort_values_ascending _ Hasc) as Hs.
  assert (nth_error (sort_values df) t = Some o) as Ho' by now rewrite Hs.
  destruct (build_hri_nth_sorted _ _ _ Ho') as [r Hr].
  exists r. split; [exact Hr|].
  pose proof (D_con_nonneg _ _ _ Hr) as Hd.
  pose proof (build_hri_row_columns df r (nth_error_In _ _ Hr)) as (Hh & _ & _).
  destruct (build_hri_nth _ _ _ Hr) as (o' & Ho'' & Er).
  rewrite Ho' in Ho''. injection Ho'' as <-. rewrite Hs in Er.
  split; [|split; [|split; [|split; [|split; [|split; [|split; [|split;
    [|split]]]]]]]]; try (subst r; reflexivity).
  - subst r. intros ->. reflexivity.
  - subst r. cbn [add_columns T_t V_var]. intros a b -> ->. reflexivity.
  - subst r. apply v_var_of_spec.
  - subst r. apply hri_formula_ln.
  - intros a v Ea Ev. rewrite Hh, Ea, Ev. apply hri_formula_finite, Hd.
Qed.

Lemma scenario_A_ascending : date_ascending scenario_A.
Proof. repeat constructor; simpl; lia. Qed.

Lemma build_hri_metrics_witness :
  exists r,
    nth_error (build_hri scenario_A) 1 = Some r
    /\ date r = 1
    /\ V_var r = Fin (Rabs (28.5 - 27)).
Proof.
  destruct (build_hri_metrics scenario_A 1 (mk_daily 1 "d2" (Fin 28.5)))
    as (r & Hr & Hd & Ht & _ & _ & _ & Hv & _).
  - repeat constructor; simpl; lia.
  - reflexivity.
  - exists r. split; [exact Hr|]. split; [exact Hd|].
    apply Hv; [exact Ht | reflexivity].
Defined.

(** The second day of the specification's scenario A. *)
Example scenario_A_day2 :
  exists r,
    nth_error (build_hri scenario_A) 1 = Some r
    /\ D_con r = 1
    /\ V_var r = Fin (Rabs (28.5 - 27))
    /\ HRI r = Fin (1 * Rmax 0 (28.5 - 28) + 8 / 10 * ln 2
                    + 5 / 10 * Rabs (28.5 - 27))
    /\ level r = WATCH.
Proof.
  eexists. split; [reflexivity|].
  cbn. unfold qualifies, T_BASE. cbn. float_decide. cbn.
  repeat split.
  unfold hri_formula, ALPHA, BETA, GAMMA, T_BASE, of_int. cbn.
  float_decide. cbn. replace (1 + 1)%R with 2%R by lra. reflexivity.
Qed.

(** C1, as stated, fails on an infinite temperature: the day after a
    finite 28.0, a temperature of +inf has V_var = +inf where the
    claim's "else 0.0" gives 0.0. *)
Lemma build_hri_V_var_infinite_day :
  let df := [mk_daily 0 "a" (Fin 28); mk_daily 1 "b" PInf] in
  date_ascending df
  /\ exists r,
      nth_error (build_hri df) 1 = Some r
      /\ T_t r = PInf
      /\ T_before df 1 = Some (Fin 28)
      /\ V_var r = PInf
      /\ spec_V_var (T_before df 1) (T_t r) = Fin 0
      /\ V_var r <> spec_V_var (T_before df 1) (T_t r).
Proof.
  split; [repeat constructor; simpl; lia|].
  eexists. split; [reflexivity|].
  cbn. repeat split. discriminate.
Qed.

End Formulas.

(* ================================================================== *)
(** ** Missing temperatures *)

Section MissingDays.

Variable df : list daily_row.

(** Every index of the input has a fully computed row. *)
Lemma build_hri_total (u : nat) :
  (u < List.length df)%nat ->
  exists ru,
    nth_error (build_hri df) u = Some ru
    /\ HRI ru = hri_formula (T_t ru) (D_con ru) (V_var ru)
    /\ trigger ru = fge (HRI ru) HRI_THRESHOLD
    /\ level ru = risk_level_from_T_D (T_t ru) (D_con ru).
Proof.
  intros Hu. rewrite <- (build_hri_length df) in Hu.
  destruct (nth_error (build_hri df) u) as [ru|] eqn:E.
  - exists ru. split; [reflexivity|].
    apply (build_hri_row_columns df). eapply nth_error_In, E.
  - apply nth_error_None in E. lia.
Qed.

(** C3, as amended.  The pass never aborts: the output has one row per
    input day and every row is fully computed.  A day whose T_t is
    non-finite gets level UNKNOWN and D_con = 0; a day whose T_t is
    missing (NaN) also gets a NaN HRI and trigger = false.  The days
    after it follow the usual recurrence, and a qualifying day that
    follows a non-qualifying one restarts the streak at D_con = 1. *)
Theorem missing_day_degrades (t : nat) (r : hri_row) :
  nth_error (build_hri df) t = Some r ->
  List.length (build_hri df) = List.length df
  /\ (forall u, (u < List.length df)%nat ->
        exists ru,
          nth_error (build_hri df) u = Some ru
          /\ HRI ru = hri_formula (T_t ru) (D_con ru) (V_var ru)
          /\ trigger ru = fge (HRI ru) HRI_THRESHOLD
          /\ level ru = risk_level_from_T_D (T_t ru) (D_con ru))
  /\ (isfinite (T_t r) = false -> level r = UNKNOWN /\ D_con r = 0)
  /\ (isnan (T_t r) = true ->
      HRI r = NaN /\ isfinite (HRI r) = false /\ trigger r = false)
  /\ (forall u r1 r2,
        (t <= u)%nat ->
        nth_error (build_hri df) u = Some r1 ->
        nth_error (build_hri df) (S u) = Some r2 ->
        D_con r2 = (if qualifies (T_t r2) then D_con r1 + 1 else 0)
        /\ (qualifies (T_t r1) = false -> qualifies (T_t r2) = true ->
            D_con r2 = 1)).
Proof.
  intros Hr.
  pose proof (build_hri_row_columns df r (nth_error_In _ _ Hr))
    as (Hh & Ht & Hl).
  split; [apply build_hri_length|].
  split; [exact build_hri_total|].
  split; [|split].
  - intros Hf. split.
    + rewrite Hl. apply risk_level_not_finite, Hf.
    + apply (D_con_reset _ _ _ Hr), qualifies_not_finite, Hf.
  - intros Hn. destruct (T_t r) eqn:E; try discriminate.
    assert (HRI r = NaN) as HN by (rewrite Hh; apply hri_formula_nan).
    rewrite Ht, HN. repeat split.
  - intros u r1 r2 _ H1 H2.
    pose proof (D_con_step _ _ _ _ H1 H2) as Hs.
    split; [exact Hs|].
    intros Hq1 Hq2. rewrite Hs, Hq2, (D_con_reset _ _ _ H1 Hq1). reflexivity.
Qed.

End MissingDays.

Lemma missing_day_degrades_witness :
  exists r,
    nth_error (build_hri [mk_daily 0 "a" NaN; mk_daily 1 "b" (Fin 29)]) 0
    = Some r
    /\ level r = UNKNOWN /\ D_con r = 0.
Proof.
  eexists. split; [reflexivity|].
  eapply (missing_day_degrades
            [mk_daily 0 "a" NaN; mk_daily 1 "b" (Fin 29)] 0).
  - reflexivity.
  - reflexivity.
Defined.

(** C3, as stated, fails on an infinite temperature: a day with
    T_t = +inf is classified UNKNOWN with D_con = 0, but its HRI is +inf
    and its trigger is true. *)
Lemma infinite_day_triggers :
  exists r,
    nth_error (build_hri [mk_daily 0 "a" (Fin 28); mk_daily 1 "b" PInf]) 1
    = Some r
    /\ isfinite (T_t r) = false
    /\ level r = UNKNOWN
    /\ D_con r = 0
    /\ HRI r = PInf
    /\ trigger r = true.
Proof.
  eexists. split; [reflexivity|].
  cbn. unfold hri_formula, ALPHA, BETA, GAMMA, T_BASE, of_int.
  cbn. unfold scale_inf. float_decide. cbn. repeat split.
Qed.

(** A first day at -inf is UNKNOWN as well, with a finite HRI. *)
Example negative_infinity_first_day :
  exists r,
    nth_error (build_hri [mk_daily 0 "a" NInf]) 0 = Some r
    /\ level r = UNKNOWN
    /\ isfinite (HRI r) = true
    /\ trigger r = false.
Proof.
  eexists. split; [reflexivity|].
  cbn. unfold hri_formula, ALPHA, BETA, GAMMA, T_BASE, HRI_THRESHOLD, of_int.
  cbn. float_decide. cbn. repeat split.
  apply Rleb_false. replace (0 + 1)%R with 1%R by lra. rewrite ln_1. lra.
Qed.

(* ================================================================== *)
(** ** Sign of the index *)

Section Sign.

Lemma V_var_sign (df : list daily_row) (t : nat) (r : hri_row) :
  nth_error (build_hri df) t = Some r ->
  V_var r = PInf \/ exists v, V_var r = Fin v /\ (0 <= v)%R.
Proof.
  intros Hr. destruct (build_hri_nth _ _ _ Hr) as (o & _ & ->).
  apply v_var_of_sign.
Qed.

(** C9. On every day whose T_t is finite, with the default weights
    alpha = 1.0, beta = 0.8 and gamma = 0.5, HRI is the sum of three
    terms that are each non-negative: the clamped temperature excess,
    beta * ln(D_con + 1) whose argument is at least 1, and
    gamma * V_var; hence HRI(t) >= 0. *)
Theorem hri_nonnegative (df : list daily_row) (t : nat) (r : hri_row) :
  nth_error (build_hri df) t = Some r ->
  isfinite (T_t r) = true ->
  let excess := fmul ALPHA (fmaximum (Fin 0) (fsub (T_t r) T_BASE)) in
  let persistence := fmul BETA (flog (fadd (of_int (D_con r)) (Fin 1))) in
  let volatility := fmul GAMMA (V_var r) in
  HRI r = fadd (fadd excess persistence) volatility
  /\ fge excess (Fin 0) = true
  /\ (1 <= IZR (D_con r) + 1)%R
  /\ fge persistence (Fin 0) = true
  /\ fge volatility (Fin 0) = true
  /\ fge (HRI r) (Fin 0) = true.
Proof.
  intros Hr Hfin.
  pose proof (build_hri_row_columns df r (nth_error_In _ _ Hr)) as (Hh & _ & _).
  pose proof (D_con_nonneg _ _ _ Hr) as Hd.
  assert (0 <= IZR (D_con r))%R as Hd' by (apply (IZR_le 0), Hd).
  pose proof (V_var_sign _ _ _ Hr) as Hv.
  destruct (T_t r) as [| | |a] eqn:ET; try discriminate.
  assert (0 <= Rmax 0 (a + - (28)))%R as Hmax by apply Rmax_l.
  assert (0 <= ln (IZR (D_con r) + 1))%R as Hln by (apply ln_nonneg; lra).
  rewrite Hh. unfold hri_formula, ALPHA, BETA, GAMMA, T_BASE, of_int.
  cbn -[Rleb Rltb].
  rewrite (proj2 (Rltb_true 0 (IZR (D_con r) + 1))) by lra.
  destruct Hv as [-> | (v & -> & Hv)]; cbn -[Rleb Rltb].
  - unfold scale_inf. float_decide.
    repeat split; try lra; apply Rleb_true; nra.
  - repeat split; try lra; apply Rleb_true; nra.
Qed.

Lemma hri_nonnegative_witness :
  exists r,
    nth_error (build_hri scenario_A) 2 = Some r
    /\ fge (HRI r) (Fin 0) = true.
Proof.
  eexists. split; [reflexivity|].
  eapply (hri_nonnegative scenario_A 2).
  - reflexivity.
  - reflexivity.
Defined.

End Sign.

(* ================================================================== *)
(** ** Defensive sorting *)

Section DefensiveSort.

Lemma sort_values_perm_eq (l l' : list daily_row) :
  NoDup (map o_date l) -> Permutation l l' ->
  sort_values l' = sort_values l.
Proof.
  intros Hnd HP.
  assert (Permutation (sort_values l') (sort_values l)) as HPs.
  { eapply perm_trans; [apply sort_values_perm|].
    eapply perm_trans; [apply Permutation_sym, HP|].
    apply Permutation_sym, sort_values_perm. }
  assert (NoDup (map o_date (sort_values l))) as Hnd1.
  { eapply Permutation_NoDup; [|exact Hnd].
    apply Permutation_map, Permutation_sym, sort_values_perm. }
  assert (NoDup (map o_date (sort_values l'))) as Hnd2.
  { eapply Permutation_NoDup; [|exact Hnd1].
    apply Permutation_map, Permutation_sym, HPs. }
  apply strictly_sorted_perm_eq; [| |exact HPs];
    apply ascending_nodup_strict; auto using sort_values_sorted.
Qed.

Lemma strictly_ascending_nodup (s : list daily_row) :
  StronglySorted (fun a b => o_date a < o_date b) s -> NoDup (map o_date s).
Proof.
  induction 1 as [|x s Hs IH Hx]; simpl; constructor; [|exact IH].
  intros Hin. apply in_map_iff in Hin as (y & E & Hy).
  rewrite Forall_forall in Hx. specialize (Hx _ Hy). lia.
Qed.

Lemma strictly_ascending_ascending (s : list daily_row) :
  StronglySorted (fun a b => o_date a < o_date b) s -> date_ascending s.
Proof.
  unfold date_ascending.
  induction 1 as [|x s Hs IH Hx]; constructor; [exact IH|].
  eapply Forall_impl; [|exact Hx]. simpl. intros; lia.
Qed.

(** C10.  [build_hri] sorts its input rather than rejecting it: for any
    input it returns one row per input row, in ascending date order,
    and there is no ordering error to raise.  For an observation series
    as the specification defines it, one observation per day in
    strictly increasing date order, every permutation of the series
    gives the result of the date-sorted series itself; more generally
    any two orders of a series with pairwise distinct dates give the
    same result. *)
Theorem build_hri_sorts_defensively (l : list daily_row) :
  List.length (build_hri l) = List.length l
  /\ rows_ascending (build_hri l)
  /\ (forall s, StronglySorted (fun a b => o_date a < o_date b) s ->
                Permutation s l ->
                sort_values l = s /\ build_hri l = build_hri s)
  /\ (forall l', NoDup (map o_date l) -> Permutation l l' ->
                 build_hri l' = build_hri l).
Proof.
  split; [apply build_hri_length|].
  split; [apply build_hri_ascending|].
  split.
  - intros s Hs HP.
    assert (sort_values l = s) as E.
    { rewrite (sort_values_perm_eq s l (strictly_ascending_nodup _ Hs) HP).
      apply sort_values_ascending, strictly_ascending_ascending, Hs. }
    split; [exact E|].
    rewrite !build_hri_pass, E.
    rewrite (sort_values_ascending _ (strictly_ascending_ascending _ Hs)).
    reflexivity.
  - intros l' Hnd HP.
    rewrite !build_hri_pass, (sort_values_perm_eq _ _ Hnd HP). reflexivity.
Qed.

Lemma build_hri_sorts_defensively_witness :
  build_hri [mk_daily 2 "c" (Fin 40); mk_daily 0 "a" (Fin 27);
             mk_daily 1 "b" (Fin 31)]
  = build_hri [mk_daily 0 "a" (Fin 27); mk_daily 1 "b" (Fin 31);
               mk_daily 2 "c" (Fin 40)].
Proof.
  destruct (build_hri_sorts_defensively
              [mk_daily 2 "c" (Fin 40); mk_daily 0 "a" (Fin 27);
               mk_daily 1 "b" (Fin 31)]) as (_ & _ & H & _).
  apply (H [mk_daily 0 "a" (Fin 27); mk_daily 1 "b" (Fin 31);
            mk_daily 2 "c" (Fin 40)]).
  - repeat constructor; simpl; lia.
  - exact (perm_trans
             (perm_skip (mk_daily 0 "a" (Fin 27))
                        (perm_swap (mk_daily 2 "c" (Fin 40))
                                   (mk_daily 1 "b" (Fin 31)) []))
             (perm_swap (mk_daily 2 "c" (Fin 40)) (mk_daily 0 "a" (Fin 27))
                        [mk_daily 1 "b" (Fin 31)])).
Defined.

End DefensiveSort.

(* ================================================================== *)
(** ** The output files *)

Section Files.

Lemma find_filter_implied {A : Type} (P Q : A -> bool) (l : list A) :
  (forall x, P x = true -> Q x = true) ->
  find P (filter Q l) = find P l.
Proof.
  intros HPQ. induction l as [|x l IH]; simpl; [reflexivity|].
  destruct (Q x) eqn:EQ; simpl.
  - destruct (P x); [reflexivity | exact IH].
  - destruct (P x) eqn:EP; [|exact IH].
    apply HPQ in EP. congruence.
Qed.

Lemma read_write_same (p : string) (a : artifact) (fs : filesystem) :
  read_file p (snd (write_file p a fs)) = Some a.
Proof. unfold read_file. simpl. rewrite String.eqb_refl. reflexivity. Qed.

Lemma read_write_other (p q : string) (a : artifact) (fs : filesystem) :
  String.eqb p q = false ->
  read_file q (snd (write_file p a fs)) = read_file q fs.
Proof.
  intros Hpq. unfold read_file. simpl. rewrite Hpq.
  rewrite find_filter_implied; [reflexivity|].
  intros [p' a'] H. simpl in *. apply String.eqb_eq in H. subst p'.
  rewrite String.eqb_sym, Hpq. reflexivity.
Qed.

Lemma read_makedirs (d q : string) (fs : filesystem) :
  read_file q (snd (makedirs d fs)) = read_file q fs.
Proof.
  unfold read_file, makedirs. simpl.
  destruct (existsb (String.eqb d) (dirs fs)); reflexivity.
Qed.

(** What a run on a non-empty series leaves in the filesystem. *)
Lemma export_nonempty (rows : list daily_row) (fs : filesystem) :
  rows <> [] ->
  let df_hri := build_hri rows in
  export rows fs
  = (inr tt,
     snd (write_file OUT_FINAL_EVENT_JSON (JsonFile (final_event_of df_hri))
            (snd (write_file OUT_TRIGGER_LIST_JSON
                    (JsonFile (JArr (map to_record (filter trigger df_hri))))
                    (snd (write_file OUT_HRI_CSV (CsvFile df_hri)
                            (snd (makedirs OUT_DIR fs)))))))).
Proof.
  intros Hne. destruct rows as [|o rows]; [contradiction|].
  unfold export, final_event_of, bind. cbn zeta.
  generalize (build_hri (o :: rows)). intros table. simpl.
  destruct (filter trigger table) as [|first rest]; reflexivity.
Qed.

Lemma export_files (rows : list daily_row) (fs : filesystem) :
  rows <> [] ->
  let fs' := snd (export rows fs) in
  fst (export rows fs) = inr tt
  /\ read_file OUT_HRI_CSV fs' = Some (CsvFile (build_hri rows))
  /\ read_file OUT_TRIGGER_LIST_JSON fs'
     = Some (JsonFile (JArr (map to_record (filter trigger (build_hri rows)))))
  /\ read_file OUT_FINAL_EVENT_JSON fs'
     = Some (JsonFile (final_event_of (build_hri rows))).
Proof.
  intros Hne. cbn zeta. rewrite (export_nonempty rows fs Hne). cbn [fst snd].
  split; [reflexivity|]. split; [|split].
  - rewrite !read_write_other by reflexivity. apply read_write_same.
  - rewrite read_write_other by reflexivity. apply read_write_same.
  - apply read_write_same.
Qed.

End Files.

(* ================================================================== *)
(** ** Consistency of the three outputs *)

Section Outputs.

Lemma filter_head_split {A : Type} (P : A -> bool) (l : list A) (x : A)
      (rest : list A) :
  filter P l = x :: rest ->
  exists pre post,
    l = (pre ++ x :: post)%list
    /\ Forall (fun y => P y = false) pre
    /\ P x = true.
Proof.
  induction l as [|y l IH]; simpl; [discriminate|].
  destruct (P y) eqn:E.
  - intros H. injection H as -> _.
    exists [], l. repeat split; [constructor | exact E].
  - intros H. destruct (IH H) as (pre & post & -> & Hpre & Hx).
    exists (y :: pre), post. repeat split; [constructor; assumption | exact Hx].
Qed.

Lemma sorted_after_split {A : Type} (R : A -> A -> Prop) (pre post : list A)
      (x : A) :
  StronglySorted R (pre ++ x :: post)%list -> Forall (R x) post.
Proof.
  induction pre as [|y pre IH]; simpl; intros H.
  - now apply StronglySorted_inv in H.
  - apply StronglySorted_inv in H. apply IH, H.
Qed.

Lemma NoDup_map_eq {A B : Type} (f : A -> B) (l : list A) (x y : A) :
  NoDup (map f l) -> In x l -> In y l -> f x = f y -> x = y.
Proof.
  induction l as [|z l IH]; simpl; [contradiction|].
  intros Hnd Hx Hy E. inversion Hnd as [|? ? Hnotin Hnd']; subst.
  destruct Hx as [-> | Hx], Hy as [-> | Hy]; auto.
  - exfalso. apply Hnotin. rewrite E. apply in_map, Hy.
  - exfalso. apply Hnotin. rewrite <- E. apply in_map, Hx.
Qed.

Lemma build_hri_dates_nodup (rows : list daily_row) :
  NoDup (map o_date rows) -> NoDup (map date (build_hri rows)).
Proof.
  intros Hnd. rewrite build_hri_dates.
  eapply Permutation_NoDup; [|exact Hnd].
  apply Permutation_map, Permutation_sym, sort_values_perm.
Qed.

Lemma acquire_dates_sub (ens : Z -> option string)
      (comp : string -> option float64) (days : list Z) (d : Z) :
  In d (map o_date (acquire ens comp days)) -> In d days.
Proof.
  unfold acquire. induction days as [|day days IH]; simpl; [auto|].
  rewrite map_app, in_app_iff. intros [H | H]; [|right; apply IH, H].
  destruct (ens day) as [p|]; [|contradiction].
  destruct (comp p); [|contradiction].
  destruct H as [<- | []]. now left.
Qed.

(** The rows gathered by [main] have pairwise distinct dates. *)
Lemma acquire_dates_nodup (ens : Z -> option string)
      (comp : string -> option float64) :
  NoDup (map o_date (acquire ens comp (daterange start_day end_day))).
Proof.
  assert (NoDup (daterange start_day end_day)) as Hnd.
  { unfold daterange. apply Injective_map_NoDup; [|apply seq_NoDup].
    intros i j H. lia. }
  revert Hnd. generalize (daterange start_day end_day). intros days.
  induction 1 as [|day days Hnotin Hnd IH]; [constructor|].
  change (acquire ens comp (day :: days))
    with ((match ens day with
           | None => []
           | Some nc_path =>
               match comp nc_path with
               | Some t => [ {| o_date := day; o_file := basename nc_path;
                                o_T_t := t |} ]
               | None => []
               end
           end) ++ acquire ens comp days)%list.
  destruct (ens day) as [p|]; [|exact IH].
  destruct (comp p); [|exact IH].
  simpl. constructor; [|exact IH].
  intros H. apply Hnotin. eapply acquire_dates_sub, H.
Qed.

(** The first triggering row, when some row triggers. *)
Lemma first_trigger_row (table : list hri_row) :
  (exists r, In r table /\ trigger r = true) ->
  exists first rest, filter trigger table = first :: rest.
Proof.
  intros (r & Hin & Ht).
  destruct (filter trigger table) as [|first rest] eqn:E.
  - assert (In r (filter trigger table)) as H by (apply filter_In; auto).
    rewrite E in H. contradiction.
  - now exists first, rest.
Qed.

(** C5. On every run that produces outputs, the three files agree: the
    trigger list holds exactly the records of the triggering rows of the
    table, so each of its records has trigger = true; and when the
    final event has triggered = true, its date and its metrics block
    (T_t, D_con, V_var, HRI) are those of a triggering row of the table,
    which is the table's only row for that date when the dates of the
    series are pairwise distinct, as they are for the rows [main]
    gathers. *)
Theorem outputs_consistent (rows : list daily_row) (fs : filesystem) :
  rows <> [] ->
  let fs' := snd (export rows fs) in
  fst (export rows fs) = inr tt
  /\ read_file OUT_HRI_CSV fs' = Some (CsvFile (build_hri rows))
  /\ exists records ev,
      read_file OUT_TRIGGER_LIST_JSON fs' = Some (JsonFile (JArr records))
      /\ read_file OUT_FINAL_EVENT_JSON fs' = Some (JsonFile ev)
      /\ (forall rec, In rec records ->
            get "trigger" rec = Some (JBool true)
            /\ exists r, In r (build_hri rows)
                         /\ trigger r = true /\ rec = to_record r)
      /\ (decision_of ev "triggered" = Some (JBool true) ->
          exists r,
            In r (build_hri rows)
            /\ trigger r = true
            /\ get "date" ev = Some (JStr (strftime (date r)))
            /\ get "metrics" ev = Some (metrics_of r)
            /\ (NoDup (map o_date rows) ->
                forall r', In r' (build_hri rows) -> date r' = date r ->
                           r' = r))
      /\ (forall ensure_oisst_file compute_jeju_mean_sst,
            NoDup (map o_date
                       (acquire ensure_oisst_file compute_jeju_mean_sst
                                (daterange start_day end_day)))).
Proof.
  intros Hne. cbn zeta.
  destruct (export_files rows fs Hne) as (Hres & Hcsv & Htl & Hev).
  split; [exact Hres|]. split; [exact Hcsv|].
  eexists. eexists. split; [exact Htl|]. split; [exact Hev|].
  split; [|split; [|exact acquire_dates_nodup]].
  - intros rec Hin. apply in_map_iff in Hin as (r & <- & Hr).
    apply filter_In in Hr as [Hr Ht].
    split; [simpl; rewrite Ht; reflexivity|].
    exists r. auto.
  - unfold final_event_of.
    destruct (filter trigger (build_hri rows)) as [|first rest] eqn:E;
      [discriminate|].
    intros _.
    assert (In first (filter trigger (build_hri rows))) as Hin
      by (rewrite E; now left).
    apply filter_In in Hin as [Hin Ht].
    exists first. repeat split; auto.
    intros Hnd r' Hr' Hd.
    eapply NoDup_map_eq; eauto using build_hri_dates_nodup.
Qed.

(** C6. When at least one day triggers, the run completes and the
    final event is the payload built from the first triggering row of
    the table: no row before it triggers, and its date is the earliest
    among the triggering rows, however many there are and whatever their
    levels or index values.  The payload carries that row's date, its
    four metrics T_t, D_con, V_var and HRI, its level, and
    triggered = true. *)
Theorem final_event_first_trigger (rows : list daily_row) (fs : filesystem) :
  (exists r, In r (build_hri rows) /\ trigger r = true) ->
  exists first pre post ev,
    build_hri rows = (pre ++ first :: post)%list
    /\ Forall (fun r => trigger r = false) pre
    /\ trigger first = true
    /\ (forall r, In r (build_hri rows) -> trigger r = true ->
                  date first <= date r)
    /\ fst (export rows fs) = inr tt
    /\ read_file OUT_FINAL_EVENT_JSON (snd (export rows fs))
       = Some (JsonFile ev)
    /\ ev = build_final_event first
    /\ get "date" ev = Some (JStr (strftime (date first)))
    /\ get "metrics" ev = Some (metrics_of first)
    /\ metric_of ev "T_t" = Some (JFloat (T_t first))
    /\ metric_of ev "D_con" = Some (JInt (D_con first))
    /\ metric_of ev "V_var" = Some (JFloat (V_var first))
    /\ metric_of ev "HRI" = Some (JFloat (HRI first))
    /\ decision_of ev "triggered" = Some (JBool true)
    /\ decision_of ev "level" = Some (JStr (level_str (level first))).
Proof.
  intros Hex.
  assert (rows <> []) as Hne.
  { intros ->. destruct Hex as (r & [] & _). }
  destruct (first_trigger_row _ Hex) as (first & rest & E).
  destruct (filter_head_split _ _ _ _ E) as (pre & post & Hsplit & Hpre & Hf).
  exists first, pre, post, (build_final_event first).
  split; [exact Hsplit|]. split; [exact Hpre|]. split; [exact Hf|].
  destruct (export_files rows fs Hne) as (Hres & _ & _ & Hev).
  split; [|split; [exact Hres|split]].
  - pose proof (build_hri_ascending rows) as Hs. unfold rows_ascending in Hs.
    rewrite Hsplit in Hs. apply sorted_after_split in Hs.
    rewrite Forall_forall in Hs, Hpre.
    intros r Hin Ht. rewrite Hsplit in Hin.
    apply in_app_or in Hin as [Hin | [<- | Hin]].
    + rewrite (Hpre _ Hin) in Ht. discriminate.
    + lia.
    + apply Hs, Hin.
  - rewrite Hev. unfold final_event_of. rewrite E. reflexivity.
  - repeat split.
Qed.

End Outputs.

(* ================================================================== *)
(** ** Concrete series *)

Section OneDay.

(** A single day at 35 degrees triggers. *)
Lemma hot_day_triggers :
  exists r,
    build_hri [mk_daily 19924 "f" (Fin 35)] = [r]
    /\ trigger r = true /\ date r = 19924.
Proof.
  eexists. split; [reflexivity|]. split; [|reflexivity].
  cbn. unfold qualifies, T_BASE. cbn. float_decide.
  unfold hri_formula, ALPHA, BETA, GAMMA, T_BASE, HRI_THRESHOLD, of_int.
  cbn. float_decide. cbn.
  apply Rleb_true.
  pose proof (Rmax_r 0 (35 + - (28))).
  assert (0 <= ln (1 + 1))%R by (apply ln_nonneg; lra).
  lra.
Qed.

(** A single day at 20 degrees does not. *)
Lemma cool_day_no_trigger :
  exists r,
    build_hri [mk_daily 19924 "f" (Fin 20)] = [r] /\ trigger r = false.
Proof.
  eexists. split; [reflexivity|].
  cbn. unfold qualifies, T_BASE. cbn. float_decide.
  unfold hri_formula, ALPHA, BETA, GAMMA, T_BASE, HRI_THRESHOLD, of_int.
  cbn. float_decide. cbn.
  apply Rleb_false.
  rewrite Rmax_left by lra.
  replace (0 + 1)%R with 1%R by lra. rewrite ln_1. lra.
Qed.

(** The three rows of [heat_wave]: the day at 27 degrees does not
    trigger, the days at 31 and at 40 degrees both do, and the later of
    the two has the larger index. *)
Lemma heat_wave_rows :
  exists r0 r1 r2,
    build_hri heat_wave = [r0; r1; r2]
    /\ (date r0 = 0 /\ date r1 = 1 /\ date r2 = 2)
    /\ (T_t r1 = Fin 31 /\ T_t r2 = Fin 40)
    /\ trigger r0 = false
    /\ trigger r1 = true
    /\ trigger r2 = true
    /\ flt (HRI r1) (HRI r2) = true.
Proof.
  eexists. eexists. eexists. split; [reflexivity|].
  split; [repeat split|]. split; [repeat split|].
  cbn. unfold qualifies, T_BASE. cbn. float_decide.
  unfold hri_formula, ALPHA, BETA, GAMMA, T_BASE, HRI_THRESHOLD, of_int.
  cbn. float_decide. cbn.
  assert (Rmax 0 (27 + - (28)) = 0)%R as M0 by (apply Rmax_left; lra).
  assert (Rmax 0 (31 + - (28)) = 3)%R as M1
    by (rewrite Rmax_right by lra; lra).
  assert (Rmax 0 (40 + - (28)) = 12)%R as M2
    by (rewrite Rmax_right by lra; lra).
  assert (Rabs (31 + - (27)) = 4)%R as A1 by (rewrite Rabs_right; lra).
  assert (Rabs (40 + - (31)) = 9)%R as A2 by (rewrite Rabs_right; lra).
  assert (ln (0 + 1) = 0)%R as L0
    by (replace (0 + 1)%R with 1%R by lra; apply ln_1).
  assert (0 <= ln (1 + 1) < 1)%R as L1.
  { split; [apply ln_nonneg; lra|].
    assert (ln (1 + 1) < ln (exp 1))%R as H.
    { apply ln_increasing; [lra|]. apply exp_ineq1. lra. }
    rewrite ln_exp in H. exact H. }
  assert (0 <= ln (2 + 1))%R as L2 by (apply ln_nonneg; lra).
  rewrite M0, M1, M2, A1, A2, L0.
  repeat split.
  - apply Rleb_false. lra.
  - apply Rleb_true. lra.
  - apply Rleb_true. lra.
  - apply Rltb_true. lra.
Qed.

End OneDay.

Lemma outputs_consistent_witness :
  exists records ev r,
    read_file OUT_TRIGGER_LIST_JSON (snd (export heat_wave empty_fs))
    = Some (JsonFile (JArr records))
    /\ List.length records = 2%nat
    /\ Forall (fun rec => get "trigger" rec = Some (JBool true)) records
    /\ read_file OUT_FINAL_EVENT_JSON (snd (export heat_wave empty_fs))
       = Some (JsonFile ev)
    /\ decision_of ev "triggered" = Some (JBool true)
    /\ In r (build_hri heat_wave)
    /\ get "date" ev = Some (JStr (strftime (date r)))
    /\ get "metrics" ev = Some (metrics_of r).
Proof.
  destruct (outputs_consistent heat_wave empty_fs)
    as (_ & _ & records & ev & Htl & Hev & Hrec & Htrig & _);
    [discriminate|].
  destruct heat_wave_rows as (r0 & r1 & r2 & E & _ & _ & T0 & T1 & T2 & _).
  destruct (export_files heat_wave empty_fs) as (_ & _ & Htl' & Hev');
    [discriminate|].
  cbn zeta in *.
  assert (filter trigger (build_hri heat_wave) = [r1; r2]) as F
    by (rewrite E; simpl; rewrite T0, T1, T2; reflexivity).
  unfold final_event_of in Hev'. rewrite F in Htl', Hev'.
  assert (records = map to_record [r1; r2]) as Erec by congruence.
  assert (ev = build_final_event r1) as Eev.
  { rewrite Hev' in Hev. injection Hev as <-. reflexivity. }
  assert (decision_of ev "triggered" = Some (JBool true)) as Hd
    by (rewrite Eev; reflexivity).
  destruct (Htrig Hd) as (r & Hr & _ & Hdate & Hmet & _).
  exists records, ev, r.
  split; [exact Htl|].
  split; [rewrite Erec; reflexivity|].
  split; [apply Forall_forall; intros rec Hin; apply Hrec, Hin|].
  split; [exact Hev|].
  auto.
Defined.

Lemma final_event_first_trigger_witness :
  exists first later,
    In later (build_hri heat_wave)
    /\ trigger later = true
    /\ date first < date later
    /\ flt (HRI first) (HRI later) = true
    /\ read_file OUT_FINAL_EVENT_JSON (snd (export heat_wave empty_fs))
       = Some (JsonFile (build_final_event first))
    /\ date first = 1
    /\ metric_of (build_final_event first) "T_t" = Some (JFloat (Fin 31)).
Proof.
  destruct heat_wave_rows
    as (r0 & r1 & r2 & E & (D0 & D1 & D2) & (Tt1 & Tt2) & T0 & T1 & T2 & Hlt).
  destruct (final_event_first_trigger heat_wave empty_fs)
    as (first & pre & post & ev & Hsplit & Hpre & Hf & _ & _ & Hev & Eev
        & _ & _ & Hm & _).
  - exists r1. rewrite E. split; [right; left; reflexivity | exact T1].
  - assert (first = r1) as ->.
    { rewrite E in Hsplit.
      destruct pre as [|p0 [|p1 [|p2 pre]]]; simpl in Hsplit.
      - injection Hsplit as <- _. congruence.
      - injection Hsplit as _ <- _. reflexivity.
      - injection Hsplit as _ <- _.
        apply Forall_inv_tail, Forall_inv in Hpre. congruence.
      - injection Hsplit as _ _ _ Hnil.
        destruct pre; discriminate. }
    exists r1, r2. rewrite E.
    split; [right; right; left; reflexivity|].
    split; [exact T2|]. split; [lia|]. split; [exact Hlt|].
    split; [rewrite Hev, Eev; reflexivity|].
    split; [exact D1|].
    rewrite <- Eev, Hm, Tt1. reflexivity.
Defined.

(* ================================================================== *)
(** ** The no-trigger payload and the empty series *)

Section NoTrigger.

Lemma no_trigger_filter (table : list hri_row) :
  (forall r, In r table -> trigger r = false) -> filter trigger table = [].
Proof.
  induction table as [|r table IH]; intros H; simpl; [reflexivity|].
  rewrite (H r) by now left.
  apply IH. intros r' Hr'. apply H. now right.
Qed.

Lemma export_no_trigger (rows : list daily_row) (fs : filesystem) :
  rows <> [] ->
  (forall r, In r (build_hri rows) -> trigger r = false) ->
  fst (export rows fs) = inr tt
  /\ read_file OUT_FINAL_EVENT_JSON (snd (export rows fs))
     = Some (JsonFile no_trigger_event).
Proof.
  intros Hne Hno.
  destruct (export_files rows fs Hne) as (Hres & _ & _ & Hev).
  split; [exact Hres|].
  rewrite Hev. unfold final_event_of.
  rewrite (no_trigger_filter _ Hno). reflexivity.
Qed.

(** C7, as amended.  When no day triggers, the run completes and the
    final event is the no-trigger payload: its decision is
    {triggered: false, level: NORMAL}, its date is null and it has a
    non-empty message.  It carries the keys event_type, region, date,
    decision and message only; each of them is also a key of every
    triggering payload, whose decision has triggered = true, so the
    triggered flag tells the two apart. *)
Theorem no_trigger_payload (rows : list daily_row) (fs : filesystem) :
  rows <> [] ->
  (forall r, In r (build_hri rows) -> trigger r = false) ->
  fst (export rows fs) = inr tt
  /\ read_file OUT_FINAL_EVENT_JSON (snd (export rows fs))
     = Some (JsonFile no_trigger_event)
  /\ get "decision" no_trigger_event
     = Some (JObj [("triggered", JBool false); ("level", JStr "NORMAL")])
  /\ decision_of no_trigger_event "triggered" = Some (JBool false)
  /\ decision_of no_trigger_event "level" = Some (JStr (level_str NORMAL))
  /\ get "date" no_trigger_event = Some JNull
  /\ (exists msg, get "message" no_trigger_event = Some (JStr msg)
                  /\ msg <> "")
  /\ keys no_trigger_event
     = ["event_type"; "region"; "date"; "decision"; "message"]
  /\ (forall row,
        incl (keys no_trigger_event) (keys (build_final_event row))
        /\ decision_of (build_final_event row) "triggered" = Some (JBool true)).
Proof.
  intros Hne Hno.
  destruct (export_no_trigger rows fs Hne Hno) as (Hres & Hev).
  split; [exact Hres|]. split; [exact Hev|].
  repeat split.
  - eexists. split; [reflexivity | discriminate].
  - intros k Hk. simpl in *. intuition.
Qed.

Lemma no_trigger_payload_witness :
  read_file OUT_FINAL_EVENT_JSON
    (snd (export [mk_daily 19924 "f" (Fin 20)] empty_fs))
  = Some (JsonFile no_trigger_event).
Proof.
  apply (no_trigger_payload [mk_daily 19924 "f" (Fin 20)] empty_fs).
  - discriminate.
  - destruct cool_day_no_trigger as (r & E & Ht).
    rewrite E. intros r' [<- | []]. exact Ht.
Defined.

(** C7, as stated, fails: on a series whose only day is at 20 degrees no
    day triggers, and the payload written has no metrics, threshold,
    weights or source key, so its keys are not those of any triggering
    payload. *)
Lemma no_trigger_payload_keys_differ :
  let rows := [mk_daily 19924 "f" (Fin 20)] in
  (forall r, In r (build_hri rows) -> trigger r = false)
  /\ exists ev,
      read_file OUT_FINAL_EVENT_JSON (snd (export rows empty_fs))
      = Some (JsonFile ev)
      /\ get "metrics" ev = None
      /\ forall row,
          get "metrics" (build_final_event row) <> None
          /\ keys ev <> keys (build_final_event row).
Proof.
  cbn zeta.
  assert (forall r, In r (build_hri [mk_daily 19924 "f" (Fin 20)]) ->
                    trigger r = false) as Hno.
  { destruct cool_day_no_trigger as (r & E & Ht).
    rewrite E. intros r' [<- | []]. exact Ht. }
  split; [exact Hno|].
  exists no_trigger_event. split.
  - apply export_no_trigger; [discriminate | exact Hno].
  - split; [reflexivity|]. intros row. split; discriminate.
Qed.

(** C8. On an empty series the run raises before anything is computed
    or written: the filesystem is left as it was, so none of the three
    output files is created.  This is what [main] does when no day of
    the range could be obtained. *)
Theorem empty_series_fails (fs : filesystem) :
  export [] fs = (inl (RuntimeError no_days_message), fs)
  /\ forall ensure_oisst_file compute_jeju_mean_sst,
      (forall day, In day (daterange start_day end_day) ->
                   ensure_oisst_file day = None
                   \/ exists p, ensure_oisst_file day = Some p
                                /\ compute_jeju_mean_sst p = None) ->
      main ensure_oisst_file compute_jeju_mean_sst fs
      = (inl (RuntimeError no_days_message), fs).
Proof.
  split; [reflexivity|].
  intros ens comp H. unfold main.
  assert (acquire ens comp (daterange start_day end_day) = []) as ->;
    [|reflexivity].
  unfold acquire.
  induction (daterange start_day end_day) as [|day days IH]; [reflexivity|].
  simpl.
  rewrite IH by (intros d Hd; apply H; now right).
  destruct (H day (or_introl eq_refl)) as [-> | (p & -> & ->)]; reflexivity.
Qed.

Lemma empty_series_fails_witness :
  main (fun _ => None) (fun _ => None) empty_fs
  = (inl (RuntimeError no_days_message), empty_fs)
  /\ read_file OUT_HRI_CSV empty_fs = None
  /\ read_file OUT_TRIGGER_LIST_JSON empty_fs = None
  /\ read_file OUT_FINAL_EVENT_JSON empty_fs = None.
Proof.
  split; [|repeat split].
  apply (empty_series_fails empty_fs).
  intros day _. left. reflexivity.
Defined.

End NoTrigger.

(** The configured range is the one its two date strings name. *)
Example configured_range :
  strftime start_day = START_DATE /\ strftime end_day = END_DATE.
Proof. split; vm_compute; reflexivity. Qed.

(* ================================================================== *)
(** ** The pass looks at the past only *)

Section Causality.

Lemma pass_firstn (n : nat) (df : list daily_row) :
  forall (streak : Z) (prev : option float64),
    pass streak prev (firstn n df) = firstn n (pass streak prev df).
Proof.
  revert df. induction n as [|n IH]; intros [|o df] streak prev;
    simpl; try reflexivity.
  rewrite IH. reflexivity.
Qed.

Lemma firstn_ascending (n : nat) (df : list daily_row) :
  date_ascending df -> date_ascending (firstn n df).
Proof.
  unfold date_ascending. intros H. revert n.
  induction H as [|x l Hl IH Hx]; intros [|n]; simpl; try constructor.
  - apply IH.
  - rewrite Forall_forall in *. intros y Hy.
    apply Hx. rewrite <- (firstn_skipn n l). apply in_or_app. now left.
Qed.

(** The metrics of a day depend on that day and the days before it
    only: on a date-ascending series, the rows computed for the first
    [n] days alone are the first [n] rows computed for the whole
    series. *)
Theorem build_hri_prefix (n : nat) (df : list daily_row) :
  date_ascending df ->
  build_hri (firstn n df) = firstn n (build_hri df).
Proof.
  intros H. rewrite !build_hri_pass.
  rewrite (sort_values_ascending _ H).
  rewrite (sort_values_ascending _ (firstn_ascending n _ H)).
  apply pass_firstn.
Qed.

Lemma build_hri_prefix_witness :
  build_hri (firstn 2 scenario_A) = firstn 2 (build_hri scenario_A).
Proof.
  apply (build_hri_prefix 2 scenario_A).
  repeat constructor; simpl; lia.
Defined.

Lemma firstn_snoc {A : Type} (l : list A) (t : nat) (x : A) :
  nth_error l t = Some x -> firstn (S t) l = (firstn t l ++ [x])%list.
Proof.
  revert t. induction l as [|y l IH]; intros [|t] H; simpl in *;
    try discriminate.
  - injection H as ->. reflexivity.
  - rewrite (IH _ H). reflexivity.
Qed.

Lemma streak_ending_snoc (ts : list float64) (x : float64) :
  streak_ending (ts ++ [x])
  = if qualifies x then S (streak_ending ts) else O.
Proof.
  unfold streak_ending. rewrite rev_app_distr. simpl.
  destruct (qualifies x); reflexivity.
Qed.

(** D_con is the length of the run of qualifying days that ends on the
    day itself: the number of consecutive temperatures, counted
    backwards from the day, that are finite and at least T_base.  It is
    therefore never negative and never more than the number of days
    seen so far. *)
Theorem D_con_counts_run (df : list daily_row) (t : nat) (r : hri_row) :
  nth_error (build_hri df) t = Some r ->
  D_con r = Z.of_nat (streak_ending (firstn (S t) (map T_t (build_hri df))))
  /\ 0 <= D_con r <= Z.of_nat t + 1.
Proof.
  revert r. induction t as [|t IH]; intros r Hr.
  - rewrite (firstn_snoc _ 0 (T_t r)) by (rewrite nth_error_map, Hr; reflexivity).
    simpl firstn. rewrite (streak_ending_snoc []).
    rewrite (D_con_first _ _ Hr).
    destruct (qualifies (T_t r)); simpl; lia.
  - destruct (nth_error (build_hri df) t) as [r1|] eqn:E.
    + destruct (IH r1 eq_refl) as (IH1 & IH2).
      rewrite (firstn_snoc _ (S t) (T_t r))
        by (rewrite nth_error_map, Hr; reflexivity).
      rewrite streak_ending_snoc, (D_con_step _ _ _ _ E Hr).
      destruct (qualifies (T_t r)); [|simpl; lia].
      rewrite IH1. lia.
    + apply nth_error_None in E.
      assert (nth_error (build_hri df) (S t) <> None) as Hn by congruence.
      apply nth_error_Some in Hn. lia.
Qed.

Lemma D_con_counts_run_witness :
  exists r,
    nth_error (build_hri scenario_A) 2 = Some r
    /\ 0 <= D_con r <= 3.
Proof.
  eexists. split; [reflexivity|].
  eapply (D_con_counts_run scenario_A 2). reflexivity.
Defined.

Lemma pass_input_columns (df : list daily_row) :
  forall (streak : Z) (prev : option float64),
    map input_columns (pass streak prev df) = df.
Proof.
  induction df as [|[d f t] df IH]; intros streak prev; simpl; [reflexivity|].
  rewrite IH. reflexivity.
Qed.

(** [build_hri] neither drops, adds nor alters observations: the date,
    file and T_t columns of its result are those of the sorted input,
    hence a rearrangement of the input rows. *)
Theorem build_hri_keeps_input (df : list daily_row) :
  map input_columns (build_hri df) = sort_values df
  /\ Permutation (map input_columns (build_hri df)) df.
Proof.
  rewrite build_hri_pass, pass_input_columns.
  split; [reflexivity | apply sort_values_perm].
Qed.

End Causality.

(* ================================================================== *)
(** ** Levels, streaks and triggers *)

Section LevelsAndTriggers.

Ltac real_cases :=
  repeat match goal with
         | |- context [Rltb ?x ?y] =>
             let E := fresh "E" in
             destruct (Rltb x y) eqn:E;
             [apply Rltb_true in E | apply Rltb_false in E]
         | |- context [Rleb ?x ?y] =>
             let E := fresh "E" in
             destruct (Rleb x y) eqn:E;
             [apply Rleb_true in E | apply Rleb_false in E]
         | |- context [?a <? ?b] =>
             let E := fresh "E" in
             destruct (Z.ltb_spec a b) as [E | E]
         end.

(** A higher temperature or a longer streak never lowers the level of
    a finite temperature. *)
Theorem risk_level_monotone (a a' : R) (d d' : Z) :
  (a <= a')%R -> d <= d' ->
  level_rank (risk_level_from_T_D (Fin a) d)
  <= level_rank (risk_level_from_T_D (Fin a') d').
Proof.
  intros Ha Hd. unfold risk_level_from_T_D, T_BASE, SEVERE_TEMP. simpl.
  real_cases; simpl; try lia; try lra.
Qed.

Lemma risk_level_monotone_witness :
  level_rank (risk_level_from_T_D (Fin 29) 1)
  <= level_rank (risk_level_from_T_D (Fin 31) 4).
Proof. apply risk_level_monotone; [lra | lia]. Defined.

(** A row's streak is positive exactly when its day qualifies. *)
Lemma D_con_positive (df : list daily_row) (t : nat) (r : hri_row) :
  nth_error (build_hri df) t = Some r ->
  qualifies (T_t r) = true -> 1 <= D_con r.
Proof.
  intros Hr Hq. destruct t as [|t].
  - rewrite (D_con_first _ _ Hr), Hq. lia.
  - destruct (nth_error (build_hri df) t) as [r1|] eqn:E.
    + rewrite (D_con_step _ _ _ _ E Hr), Hq.
      pose proof (D_con_nonneg _ _ _ E). lia.
    + apply nth_error_None in E.
      assert (nth_error (build_hri df) (S t) <> None) as Hn by congruence.
      apply nth_error_Some in Hn. lia.
Qed.

(** In the frame [build_hri] returns the level and the streak agree:
    NORMAL and UNKNOWN days have D_con = 0, WATCH days have D_con 1 or
    2, WARNING and SEVERE days have D_con >= 3. *)
Theorem level_matches_streak (df : list daily_row) (r : hri_row) :
  In r (build_hri df) ->
  match level r with
  | NORMAL | UNKNOWN => D_con r = 0
  | WATCH => 1 <= D_con r <= 2
  | WARNING | SEVERE => 3 <= D_con r
  end.
Proof.
  intros Hin.
  pose proof (build_hri_row_columns df r Hin) as (_ & _ & Hl).
  apply In_nth_error in Hin as [t Hr].
  pose proof (D_con_reset _ _ _ Hr) as H0.
  pose proof (D_con_positive _ _ _ Hr) as H1.
  rewrite Hl. unfold risk_level_from_T_D, qualifies, T_BASE, SEVERE_TEMP in *.
  destruct (T_t r) as [| | |a]; simpl in *; auto.
  rewrite Rltb_negb_Rleb.
  destruct (Rleb 28 a); simpl; auto.
  specialize (H1 eq_refl).
  destruct (Z.ltb_spec (D_con r) 3); [lia|].
  destruct (Rltb a 30); lia.
Qed.

Lemma level_matches_streak_witness :
  exists r,
    In r (build_hri scenario_A)
    /\ match level r with
       | NORMAL | UNKNOWN => D_con r = 0
       | WATCH => 1 <= D_con r <= 2
       | WARNING | SEVERE => 3 <= D_con r
       end.
Proof.
  eexists. split; [left; reflexivity|].
  apply (level_matches_streak scenario_A). left. reflexivity.
Defined.

End LevelsAndTriggers.

(* ================================================================== *)
(** ** Days that always trigger *)

Section Triggers.

Lemma ln_le (x y : R) : (0 < x)%R -> (x <= y)%R -> (ln x <= ln y)%R.
Proof.
  intros Hx [Hlt | ->].
  - left. apply ln_increasing; assumption.
  - right. reflexivity.
Qed.

Lemma ln_4_lower : (5 / 4 <= ln 4)%R.
Proof.
  assert (exp (5 / 4) <= 4)%R as H.
  { replace (5 / 4)%R with (1 + 1 / 4)%R by lra. rewrite exp_plus.
    pose proof exp_le_3 as H3.
    pose proof (exp_pos 1) as P1.
    pose proof (exp_pos (1 / 4)) as P4.
    pose proof (exp_ineq1_le (- (1 / 4))) as Hm.
    assert (exp (1 / 4) * exp (- (1 / 4)) = 1)%R as Hone.
    { rewrite <- exp_plus. replace (1 / 4 + - (1 / 4))%R with 0%R by lra.
      apply exp_0. }
    assert (exp (1 / 4) <= 4 / 3)%R by nra.
    nra. }
  rewrite <- (ln_exp (5 / 4)). apply ln_le; [apply exp_pos | exact H].
Qed.

Lemma hri_formula_pinf (a : R) (d : Z) :
  0 <= d -> hri_formula (Fin a) d PInf = PInf.
Proof.
  intros Hd. unfold hri_formula, ALPHA, BETA, GAMMA, T_BASE, of_int.
  cbn -[Rleb Rltb].
  assert (0 <= IZR d)%R by (apply (IZR_le 0), Hd).
  rewrite (proj2 (Rltb_true 0 (IZR d + 1))) by lra.
  unfold scale_inf. float_decide. reflexivity.
Qed.

(** A row with a finite temperature triggers as soon as its index is
    at least 3 for every finite value its V_var may have. *)
Lemma trigger_from_bound (df : list daily_row) (t : nat) (r : hri_row) (a : R) :
  nth_error (build_hri df) t = Some r ->
  T_t r = Fin a ->
  (forall v, V_var r = Fin v -> (0 <= v)%R ->
             (3 <= 1 * Rmax 0 (a - 28) + 8 / 10 * ln (IZR (D_con r + 1))
                   + 5 / 10 * v)%R) ->
  trigger r = true.
Proof.
  intros Hr Ea Hb.
  pose proof (build_hri_row_columns df r (nth_error_In _ _ Hr)) as (Hh & Ht & _).
  pose proof (D_con_nonneg _ _ _ Hr) as Hd.
  rewrite Ht, Hh, Ea.
  destruct (V_var_sign _ _ _ Hr) as [Ev | (v & Ev & Hv)]; rewrite Ev.
  - rewrite (hri_formula_pinf _ _ Hd). reflexivity.
  - rewrite (hri_formula_finite _ _ _ Hd). unfold HRI_THRESHOLD.
    apply fge_Fin, Hb; assumption.
Qed.

(** The volatility term between two consecutive rows of the result. *)
Lemma V_var_step (df : list daily_row) (t : nat) (r1 r2 : hri_row) :
  nth_error (build_hri df) t = Some r1 ->
  nth_error (build_hri df) (S t) = Some r2 ->
  V_var r2 = fillna (fabs (fsub (T_t r2) (T_t r1))) (Fin 0).
Proof.
  intros H1 H2.
  destruct (build_hri_nth _ _ _ H1) as (o1 & Ho1 & E1).
  destruct (build_hri_nth _ _ _ H2) as (o2 & Ho2 & E2).
  rewrite E2, E1. cbn [add_columns V_var T_t T_before].
  rewrite Ho1. reflexivity.
Qed.

(** Every SEVERE day triggers: a temperature of at least 30 degrees on
    the third or a later day of a streak puts HRI at
    2 + 0.8 * ln 4 or more, which is above the threshold 3. *)
Theorem severe_day_triggers (df : list daily_row) (r : hri_row) :
  In r (build_hri df) -> level r = SEVERE -> trigger r = true.
Proof.
  intros Hin Hsev.
  pose proof (build_hri_row_columns df r Hin) as (_ & _ & Hl).
  apply In_nth_error in Hin as [t Hr].
  rewrite Hl in Hsev.
  unfold risk_level_from_T_D, T_BASE, SEVERE_TEMP in Hsev.
  destruct (T_t r) as [| | |a] eqn:Ea; simpl in Hsev; try discriminate.
  destruct (Rltb a 28); [discriminate|].
  destruct (Z.ltb_spec (D_con r) 3) as [|Hd]; [discriminate|].
  destruct (Rltb a 30) eqn:E30; [discriminate|].
  apply Rltb_false in E30.
  apply (trigger_from_bound df t r a Hr Ea).
  intros v _ Hv.
  pose proof (Rmax_r 0 (a - 28)) as Hmax.
  assert (ln 4 <= ln (IZR (D_con r + 1)))%R as Hln.
  { apply ln_le; [lra|]. apply (IZR_le 4). lia. }
  pose proof ln_4_lower. lra.
Qed.

(** A finite temperature of 31 degrees or more triggers whatever the
    days before it were. *)
Theorem hot_day_always_triggers (df : list daily_row) (r : hri_row) (a : R) :
  In r (build_hri df) -> T_t r = Fin a -> (31 <= a)%R -> trigger r = true.
Proof.
  intros Hin Ea Ha.
  apply In_nth_error in Hin as [t Hr].
  apply (trigger_from_bound df t r a Hr Ea).
  intros v _ Hv.
  pose proof (Rmax_r 0 (a - 28)) as Hmax.
  pose proof (D_con_nonneg _ _ _ Hr) as Hd.
  assert (0 <= ln (IZR (D_con r + 1)))%R as Hln.
  { apply ln_nonneg. apply (IZR_le 1). lia. }
  lra.
Qed.

(** A change of 6 degrees or more between two consecutive finite
    temperatures triggers on the second day, in either direction; when
    that day is below T_base, it triggers with level NORMAL and
    D_con = 0. *)
Theorem large_swing_triggers (df : list daily_row) (t : nat)
        (r1 r2 : hri_row) (a b : R) :
  nth_error (build_hri df) t = Some r1 ->
  nth_error (build_hri df) (S t) = Some r2 ->
  T_t r1 = Fin a -> T_t r2 = Fin b ->
  (6 <= Rabs (b - a))%R ->
  V_var r2 = Fin (Rabs (b - a))
  /\ trigger r2 = true
  /\ ((b < 28)%R -> level r2 = NORMAL /\ D_con r2 = 0).
Proof.
  intros H1 H2 Ea Eb Hab.
  assert (V_var r2 = Fin (Rabs (b - a))) as Ev.
  { rewrite (V_var_step _ _ _ _ H1 H2), Ea, Eb. reflexivity. }
  split; [exact Ev|]. split.
  - apply (trigger_from_bound df (S t) r2 b H2 Eb).
    intros v Ev' _. rewrite Ev in Ev'. injection Ev' as <-.
    pose proof (Rmax_l 0 (b - 28)) as Hmax.
    pose proof (D_con_nonneg _ _ _ H2) as Hd.
    assert (0 <= ln (IZR (D_con r2 + 1)))%R as Hln.
    { apply ln_nonneg. apply (IZR_le 1). lia. }
    lra.
  - intros Hb.
    pose proof (build_hri_row_columns df r2 (nth_error_In _ _ H2))
      as (_ & _ & Hl).
    assert (qualifies (T_t r2) = false) as Hq.
    { rewrite Eb. unfold qualifies, T_BASE. simpl. apply Rleb_false, Hb. }
    split; [|apply (D_con_reset _ _ _ H2 Hq)].
    rewrite Hl, Eb. unfold risk_level_from_T_D, T_BASE. simpl.
    rewrite (proj2 (Rltb_true b 28) Hb). reflexivity.
Qed.

End Triggers.

Lemma severe_day_triggers_witness :
  exists r,
    nth_error (build_hri [mk_daily 0 "a" (Fin 30); mk_daily 1 "b" (Fin 30);
                          mk_daily 2 "c" (Fin 30)]) 2 = Some r
    /\ trigger r = true.
Proof.
  eexists. split; [reflexivity|].
  eapply (severe_day_triggers
            [mk_daily 0 "a" (Fin 30); mk_daily 1 "b" (Fin 30);
             mk_daily 2 "c" (Fin 30)]).
  - right. right. left. reflexivity.
  - cbn. unfold qualifies, T_BASE. cbn. float_decide. cbn.
    unfold risk_level_from_T_D, T_BASE, SEVERE_TEMP. cbn. float_decide.
    reflexivity.
Defined.

Lemma hot_day_always_triggers_witness :
  exists r,
    In r (build_hri [mk_daily 19924 "f" (Fin 35)]) /\ trigger r = true.
Proof.
  eexists. split; [left; reflexivity|].
  apply (hot_day_always_triggers [mk_daily 19924 "f" (Fin 35)] _ 35).
  - left. reflexivity.
  - reflexivity.
  - lra.
Defined.

Lemma large_swing_triggers_witness :
  exists r,
    nth_error (build_hri [mk_daily 0 "a" (Fin 20); mk_daily 1 "b" (Fin 27)]) 1
    = Some r
    /\ trigger r = true /\ level r = NORMAL.
Proof.
  eexists. split; [reflexivity|].
  destruct (large_swing_triggers
              [mk_daily 0 "a" (Fin 20); mk_daily 1 "b" (Fin 27)] 0
              _ _ 20 27 eq_refl eq_refl eq_refl eq_refl) as (_ & Ht & Hl).
  - rewrite Rabs_right; lra.
  - split; [exact Ht|]. apply Hl. lra.
Defined.

(* ================================================================== *)
(** ** The day range and the acquisition loop *)

Section Acquire.

Lemma daterange_In (start stop d : Z) :
  In d (daterange start stop) <-> start <= d <= stop.
Proof.
  unfold daterange. rewrite in_map_iff. split.
  - intros (i & <- & Hi). apply in_seq in Hi. lia.
  - intros Hd. exists (Z.to_nat (d - start)). split; [lia|].
    apply in_seq. lia.
Qed.

Lemma daterange_sorted (start stop : Z) :
  StronglySorted Z.lt (daterange start stop).
Proof.
  unfold daterange.
  generalize (Z.to_nat (stop - start + 1)). intros n.
  generalize 0%nat. induction n as [|n IH]; intros k; simpl; constructor.
  - apply IH.
  - rewrite Forall_forall. intros x Hx.
    apply in_map_iff in Hx as (i & <- & Hi). apply in_seq in Hi. lia.
Qed.

Variable ens : Z -> option string.
Variable comp : string -> option float64.

Lemma acquire_cons (day : Z) (days : list Z) :
  acquire ens comp (day :: days)
  = ((match ens day with
      | None => []
      | Some nc_path =>
          match comp nc_path with
          | Some t => [ {| o_date := day; o_file := basename nc_path;
                           o_T_t := t |} ]
          | None => []
          end
      end) ++ acquire ens comp days)%list.
Proof. reflexivity. Qed.

(** The loop keeps exactly the days whose file was obtained and
    parsed; a day that fails at either step is skipped and the loop
    goes on. *)
Lemma acquire_rows (days : list Z) (o : daily_row) :
  In o (acquire ens comp days)
  <-> exists nc_path,
        In (o_date o) days
        /\ ens (o_date o) = Some nc_path
        /\ comp nc_path = Some (o_T_t o)
        /\ o_file o = basename nc_path.
Proof.
  induction days as [|day days IH].
  - simpl. split; [contradiction | intros (p & [] & _)].
  - rewrite acquire_cons, in_app_iff, IH. split.
    + intros [H | (p & Hin & H)].
      * destruct (ens day) as [p|] eqn:Ep; [|contradiction].
        destruct (comp p) as [t|] eqn:Et; [|contradiction].
        destruct H as [<- | []]. exists p. simpl. auto.
      * exists p. split; [now right | exact H].
    + intros (p & [Hd | Hin] & Ep & Et & Ef).
      * left. rewrite Hd, Ep, Et. left. destruct o; simpl in *.
        now subst.
      * right. exists p. auto.
Qed.

Lemma acquire_sorted (days : list Z) :
  StronglySorted Z.lt days ->
  StronglySorted (fun a b => o_date a < o_date b) (acquire ens comp days).
Proof.
  induction 1 as [|day days Hs IH Hd]; [constructor|].
  rewrite acquire_cons.
  destruct (ens day) as [p|]; [|exact IH].
  destruct (comp p) as [t|]; [|exact IH].
  simpl. constructor; [exact IH|].
  rewrite Forall_forall in *. intros o Ho. simpl.
  apply Hd. apply acquire_rows in Ho as (q & Hin & _). exact Hin.
Qed.

(** The frame [main] hands to [build_hri] holds one row for each day of
    the configured range whose file was obtained and parsed, and no
    other row, in strictly increasing date order; sorting leaves it as
    it is, so the table lists those days in calendar order. *)
Theorem main_frame_in_calendar_order :
  let rows := acquire ens comp (daterange start_day end_day) in
  (forall o, In o rows <->
             exists nc_path,
               start_day <= o_date o <= end_day
               /\ ens (o_date o) = Some nc_path
               /\ comp nc_path = Some (o_T_t o)
               /\ o_file o = basename nc_path)
  /\ StronglySorted (fun a b => o_date a < o_date b) rows
  /\ sort_values rows = rows
  /\ map input_columns (build_hri rows) = rows.
Proof.
  cbn zeta.
  pose proof (daterange_In start_day end_day) as Hin.
  pose proof (acquire_sorted _ (daterange_sorted start_day end_day)) as Hsorted.
  assert (sort_values (acquire ens comp (daterange start_day end_day))
          = acquire ens comp (daterange start_day end_day)) as Hid.
  { apply sort_values_ascending. unfold date_ascending.
    eapply StronglySorted_ind with
      (P := StronglySorted (fun a b => o_date a <= o_date b));
      [constructor | | exact Hsorted].
    intros a l _ IH Ha. constructor; [exact IH|].
    eapply Forall_impl; [|exact Ha]. simpl. intros; lia. }
  split; [|split; [exact Hsorted | split; [exact Hid|]]].
  - intros o. rewrite acquire_rows. split.
    + intros (p & Hd & H). exists p. split; [apply Hin, Hd | exact H].
    + intros (p & Hd & H). exists p. split; [apply Hin, Hd | exact H].
  - rewrite build_hri_pass, pass_input_columns. exact Hid.
Qed.

End Acquire.

(* ================================================================== *)
(** ** Outcomes of a run *)

Section RunOutcome.

Lemma export_result (rows : list daily_row) (fs : filesystem) :
  (rows = [] /\ export rows fs = (inl (RuntimeError no_days_message), fs))
  \/ (rows <> [] /\ fst (export rows fs) = inr tt).
Proof.
  destruct rows as [|o rows].
  - left. split; reflexivity.
  - right. split; [discriminate|].
    apply (export_files (o :: rows) fs). discriminate.
Qed.


Lemma write_keeps_dirs (p : string) (a : artifact) (fs : filesystem) :
  dirs (snd (write_file p a fs)) = dirs fs.
Proof. reflexivity. Qed.

(** A run writes its three output files and nothing else: any other
    path reads as before.  What the three files hold afterwards depends
    on the series only, not on what the filesystem held before, so
    running again on the same series changes nothing that can be
    read. *)
Theorem export_writes_outputs_only (rows : list daily_row) (fs : filesystem) :
  (forall path, ~ In path output_paths ->
                read_file path (snd (export rows fs)) = read_file path fs)
  /\ (forall fs' path, rows <> [] -> In path output_paths ->
                       read_file path (snd (export rows fs))
                       = read_file path (snd (export rows fs')))
  /\ (forall path,
        read_file path (snd (export rows (snd (export rows fs))))
        = read_file path (snd (export rows fs))).
Proof.
  assert (forall fs0 path, ~ In path output_paths ->
            read_file path (snd (export rows fs0)) = read_file path fs0)
    as Hframe.
  { intros fs0 path Hnot.
    destruct (export_result rows fs0) as [(E & Hr) | (Hne & _)].
    - rewrite Hr. reflexivity.
    - rewrite (export_nonempty rows fs0 Hne). cbn [snd].
      unfold output_paths in Hnot. simpl in Hnot.
      rewrite !read_write_other
        by (apply String.eqb_neq; intros E; apply Hnot; auto).
      apply read_makedirs. }
  assert (forall fs1 fs2 path, rows <> [] -> In path output_paths ->
            read_file path (snd (export rows fs1))
            = read_file path (snd (export rows fs2))) as Hsame.
  { intros fs1 fs2 path Hne Hin.
    destruct (export_files rows fs1 Hne) as (_ & C1 & T1 & F1).
    destruct (export_files rows fs2 Hne) as (_ & C2 & T2 & F2).
    cbn zeta in *.
    destruct Hin as [<- | [<- | [<- | []]]]; congruence. }
  split; [apply Hframe|]. split; [intros fs' path; apply Hsame|].
  intros path.
  destruct (export_result rows fs) as [(E & Hr) | (Hne & _)].
  - subst rows. reflexivity.
  - destruct (in_dec string_dec path output_paths) as [Hin | Hnot].
    + apply Hsame; assumption.
    + rewrite !Hframe by assumption. reflexivity.
Qed.

Lemma export_writes_outputs_only_witness :
  read_file OUT_HRI_CSV (snd (export scenario_A empty_fs))
  = read_file OUT_HRI_CSV
      (snd (export scenario_A (snd (export scenario_A empty_fs)))).
Proof.
  apply (export_writes_outputs_only scenario_A empty_fs).
  - discriminate.
  - left. reflexivity.
Defined.

(** The final event and the trigger list tell the same story: with an
    empty trigger list the final event is the no-trigger payload, and
    otherwise it has triggered = true and the date, the four metrics
    and the level of the first record of the list.  The list has at
    most one record per day of the series. *)
Theorem final_event_matches_trigger_list (rows : list daily_row)
        (fs : filesystem) :
  rows <> [] ->
  exists records ev,
    read_file OUT_TRIGGER_LIST_JSON (snd (export rows fs))
    = Some (JsonFile (JArr records))
    /\ read_file OUT_FINAL_EVENT_JSON (snd (export rows fs))
       = Some (JsonFile ev)
    /\ (List.length records <= List.length rows)%nat
    /\ (records = [] -> ev = no_trigger_event)
    /\ (forall rec rest, records = rec :: rest ->
          decision_of ev "triggered" = Some (JBool true)
          /\ get "date" ev = get "date" rec
          /\ metric_of ev "T_t" = get "T_t" rec
          /\ metric_of ev "D_con" = get "D_con" rec
          /\ metric_of ev "V_var" = get "V_var" rec
          /\ metric_of ev "HRI" = get "HRI" rec
          /\ decision_of ev "level" = get "level" rec
          /\ get "trigger" rec = Some (JBool true)).
Proof.
  intros Hne.
  destruct (export_files rows fs Hne) as (_ & _ & Htl & Hev).
  eexists. eexists. split; [exact Htl|]. split; [exact Hev|].
  split; [|split].
  - rewrite length_map, <- (build_hri_length rows). apply filter_length_le.
  - unfold final_event_of.
    destruct (filter trigger (build_hri rows)); [reflexivity | discriminate].
  - intros rec rest E. unfold final_event_of.
    destruct (filter trigger (build_hri rows)) as [|first others] eqn:Ef;
      [discriminate|].
    simpl in E. injection E as <- _.
    assert (trigger first = true) as Ht.
    { assert (In first (filter trigger (build_hri rows))) as Hin
        by (rewrite Ef; now left).
      apply filter_In in Hin. apply Hin. }
    repeat split. simpl. rewrite Ht. reflexivity.
Qed.

Lemma final_event_matches_trigger_list_witness :
  exists records,
    read_file OUT_TRIGGER_LIST_JSON (snd (export scenario_A empty_fs))
    = Some (JsonFile (JArr records))
    /\ (List.length records <= 3)%nat.
Proof.
  destruct (final_event_matches_trigger_list scenario_A empty_fs)
    as (records & ev & Htl & _ & Hlen & _).
  - discriminate.
  - exists records. split; [exact Htl | exact Hlen].
Defined.

End RunOutcome.

(* ================================================================== *)
(** ** File names of the download folder *)

Section FileNames.

Import Acquisition.

Lemma string_app_assoc (a b c : string) :
  ((a ++ b) ++ c)%string = (a ++ (b ++ c))%string.
Proof. induction a as [|x a IH]; simpl; [reflexivity | now rewrite IH]. Qed.

Lemma string_app_empty_r (a : string) : (a ++ "")%string = a.
Proof. induction a as [|x a IH]; simpl; [reflexivity | now rewrite IH]. Qed.

Lemma basename_from_name (f acc : string) :
  no_separator f = true -> basename_from acc f = (acc ++ f)%string.
Proof.
  revert acc. induction f as [|c f IH]; intros acc H; simpl in *.
  - symmetry. apply string_app_empty_r.
  - apply andb_prop in H as [Hc Hf].
    apply negb_true_iff in Hc. rewrite Hc, (IH _ Hf).
    apply string_app_assoc.
Qed.

Lemma basename_from_join (d f acc : string) :
  no_separator f = true ->
  basename_from acc (d ++ "/" ++ f) = f.
Proof.
  intros Hf. revert acc. induction d as [|c d IH]; intros acc; simpl.
  - apply (basename_from_name f "" Hf).
  - destruct (Ascii.eqb c "/"); apply IH.
Qed.

(** [basename] undoes [path_join]: whatever the directory, the last
    component of the joined path is the file name, provided the name
    holds no separator. *)
Theorem basename_path_join (d f : string) :
  no_separator f = true -> basename (path_join d f) = f.
Proof. intros Hf. apply basename_from_join, Hf. Qed.

Lemma basename_path_join_witness :
  basename (path_join OUT_DIR "trigger_events.json") = "trigger_events.json".
Proof. apply basename_path_join. reflexivity. Defined.

Lemma no_separator_app (a b : string) :
  no_separator (a ++ b) = no_separator a && no_separator b.
Proof.
  induction a as [|c a IH]; simpl; [reflexivity|].
  rewrite IH. apply andb_assoc.
Qed.

Lemma no_separator_digit (n : Z) : no_separator (digit n) = true.
Proof.
  unfold digit.
  assert (0 <= n mod 10 < 10) as H by (apply Z.mod_pos_bound; lia).
  assert (n mod 10 = 0 \/ n mod 10 = 1 \/ n mod 10 = 2 \/ n mod 10 = 3
          \/ n mod 10 = 4 \/ n mod 10 = 5 \/ n mod 10 = 6 \/ n mod 10 = 7
          \/ n mod 10 = 8 \/ n mod 10 = 9) as Hc by lia.
  repeat (destruct Hc as [-> | Hc]; [reflexivity|]).
  rewrite Hc. reflexivity.
Qed.

Lemma no_separator_dec2 (n : Z) : no_separator (dec2 n) = true.
Proof.
  unfold dec2. rewrite no_separator_app, !no_separator_digit. reflexivity.
Qed.

Lemma no_separator_name (day : Z) : no_separator (oisst_name day) = true.
Proof.
  unfold oisst_name, yyyymmdd_of.
  destruct (civil_from_days day) as [[y m] d].
  rewrite !no_separator_app. unfold dec4.
  rewrite !no_separator_app, !no_separator_dec2. reflexivity.
Qed.

Lemma basename_from_sep (acc s : string) :
  basename_from acc (String "/" s) = basename_from EmptyString s.
Proof. reflexivity. Qed.

Lemma basename_from_app (d : string) :
  forall acc, exists acc',
    forall s, basename_from acc (d ++ s) = basename_from acc' s.
Proof.
  induction d as [|c d IH]; intros acc; simpl.
  - exists acc. reflexivity.
  - destruct (Ascii.eqb c "/"); apply IH.
Qed.

(** A day's file is stored under the name it has on the server: the
    last component of the local path and of the download URL are both
    [oisst-avhrr-v02r01.YYYYMMDD.nc], so this is the name a row's file
    column holds when its path is the local path. *)
Theorem oisst_file_name (day : Z) :
  basename (local_path day) = oisst_name day
  /\ basename (oisst_url day) = oisst_name day.
Proof.
  split.
  - apply basename_from_join, no_separator_name.
  - unfold basename, oisst_url.
    match goal with
    | |- basename_from _ (?pre ++ _) = _ =>
        destruct (basename_from_app pre EmptyString) as [acc1 ->]
    end.
    destruct (basename_from_app (year_of day) acc1) as [acc2 ->].
    destruct (basename_from_app (month_of day) acc2) as [acc3 ->].
    change ("/oisst-avhrr-v02r01." ++ yyyymmdd_of day ++ ".nc")%string
      with (String "/" (oisst_name day)).
    rewrite basename_from_sep.
    apply (basename_from_name _ EmptyString), no_separator_name.
Qed.

End FileNames.

(* ================================================================== *)
(** ** The download cache *)

Section DownloadCache.

Import Acquisition.

Lemma store_makedirs_files (d : string) (st : data_store) :
  d_files (store_makedirs d st) = d_files st.
Proof.
  unfold store_makedirs. destruct (existsb (String.eqb d) (d_dirs st));
    reflexivity.
Qed.

Lemma store_makedirs_exists (d : string) (st : data_store) :
  existsb (String.eqb d) (d_dirs (store_makedirs d st)) = true.
Proof.
  unfold store_makedirs.
  destruct (existsb (String.eqb d) (d_dirs st)) eqn:E; [exact E|].
  simpl. rewrite String.eqb_refl. reflexivity.
Qed.

Lemma store_makedirs_again (d : string) (st : data_store) :
  existsb (String.eqb d) (d_dirs st) = true -> store_makedirs d st = st.
Proof. unfold store_makedirs. intros ->. reflexivity. Qed.

(** A file that is already in the download folder is never fetched
    again: the call returns its path without consulting the network
    and leaves the files of the folder as they are. *)
Theorem ensure_oisst_file_uses_cache
        (urlretrieve : string -> string -> data_store -> bool * data_store)
        (day : Z) (st : data_store) :
  path_exists (local_path day) st = true ->
  ensure_oisst_file urlretrieve day st
  = (Some (local_path day), store_makedirs DATA_DIR st)
  /\ d_files (snd (ensure_oisst_file urlretrieve day st)) = d_files st.
Proof.
  intros Hex. unfold ensure_oisst_file.
  assert (path_exists (local_path day) (store_makedirs DATA_DIR st) = true)
    as ->.
  { unfold path_exists. rewrite store_makedirs_files. exact Hex. }
  split; [reflexivity | apply store_makedirs_files].
Qed.

Lemma ensure_oisst_file_uses_cache_witness :
  ensure_oisst_file (fun _ _ st => (false, st)) start_day
    {| d_dirs := []; d_files := [local_path start_day] |}
  = (Some (local_path start_day),
     store_makedirs DATA_DIR
       {| d_dirs := []; d_files := [local_path start_day] |}).
Proof.
  apply ensure_oisst_file_uses_cache.
  unfold path_exists. cbn [d_files existsb].
  rewrite String.eqb_refl. reflexivity.
Defined.

(** Once a call has returned a path, the file is kept: provided a
    download that returns has put the file at its path and has left
    the directories alone, every later call for that day returns the
    same path and changes nothing, whatever the network does then.
    A call that returns no path has tried the download and seen it
    fail. *)
Theorem ensure_oisst_file_downloads_once
        (urlretrieve urlretrieve' :
           string -> string -> data_store -> bool * data_store)
        (day : Z) (st st1 : data_store) (res : option string) :
  (forall url path s s',
      urlretrieve url path s = (true, s') ->
      path_exists path s' = true /\ d_dirs s' = d_dirs s) ->
  ensure_oisst_file urlretrieve day st = (res, st1) ->
  (res = Some (local_path day) \/ res = None)
  /\ (res = Some (local_path day) ->
      path_exists (local_path day) st1 = true
      /\ ensure_oisst_file urlretrieve' day st1 = (res, st1))
  /\ (res = None ->
      path_exists (local_path day) st = false
      /\ fst (urlretrieve (oisst_url day) (local_path day)
                          (store_makedirs DATA_DIR st)) = false).
Proof.
  intros Hnet. unfold ensure_oisst_file.
  assert (path_exists (local_path day) (store_makedirs DATA_DIR st)
          = path_exists (local_path day) st) as Hsame
    by (unfold path_exists; now rewrite store_makedirs_files).
  destruct (path_exists (local_path day) (store_makedirs DATA_DIR st)) eqn:Ex.
  - intros H. injection H as <- <-.
    split; [now left|]. split; [|discriminate].
    intros _. split; [exact Ex|].
    rewrite (store_makedirs_again DATA_DIR) by apply store_makedirs_exists.
    rewrite Ex. reflexivity.
  - destruct (urlretrieve (oisst_url day) (local_path day)
                          (store_makedirs DATA_DIR st)) as [ok st2] eqn:Eu.
    destruct ok; intros H; injection H as <- <-.
    + destruct (Hnet _ _ _ _ Eu) as (Hp & Hd).
      split; [now left|]. split; [|discriminate].
      intros _. split; [exact Hp|].
      rewrite (store_makedirs_again DATA_DIR)
        by (rewrite Hd; apply store_makedirs_exists).
      rewrite Hp. reflexivity.
    + split; [now right|]. split; [discriminate|].
      intros _. split; [now rewrite <- Hsame | reflexivity].
Qed.

Lemma ensure_oisst_file_downloads_once_witness :
  exists st1,
    ensure_oisst_file
      (fun _ path st => (true, {| d_dirs := d_dirs st;
                                  d_files := path :: d_files st |}))
      start_day {| d_dirs := []; d_files := [] |}
    = (Some (local_path start_day), st1)
    /\ ensure_oisst_file (fun _ _ st => (false, st)) start_day st1
       = (Some (local_path start_day), st1).
Proof.
  eexists. split; [reflexivity|].
  eapply (ensure_oisst_file_downloads_once
            (fun _ path st => (true, {| d_dirs := d_dirs st;
                                        d_files := path :: d_files st |}))
            (fun _ _ st => (false, st)) start_day
            {| d_dirs := []; d_files := [] |}).
  - intros url path s s' H. injection H as <-.
    split; [|reflexivity].
    unfold path_exists. cbn [d_files existsb].
    rewrite String.eqb_refl. reflexivity.
  - reflexivity.
  - reflexivity.
Defined.

End DownloadCache.

(* ================================================================== *)
(** ** The regional mean *)

Section RegionalMean.

Import Acquisition.

Lemma masked_row (b : bool) (lon row : list float64) :
  filter (fun v => negb (isnan v))
         (map (fun lv : float64 * float64 =>
                 if b && between JEJU_LON_MIN JEJU_LON_MAX (fst lv)
                 then snd lv else NaN)
              (combine lon row))
  = if b
    then flat_map (fun lv : float64 * float64 =>
                     if between JEJU_LON_MIN JEJU_LON_MAX (fst lv)
                        && negb (isnan (snd lv))
                     then [snd lv] else [])
                  (combine lon row)
    else [].
Proof.
  destruct b; induction (combine lon row) as [|lv l IH]; simpl in *;
    try reflexivity; try exact IH.
  destruct (between JEJU_LON_MIN JEJU_LON_MAX (fst lv)); simpl.
  - destruct (isnan (snd lv)); simpl; rewrite IH; reflexivity.
  - exact IH.
Qed.

(** Masking and skipping NaN leave exactly the valued cells of the
    region. *)
Lemma where_roi_values (lat lon : list float64) (sst : list (list float64)) :
  filter (fun v => negb (isnan v)) (List.concat (where_roi lat lon sst))
  = roi_values lat lon sst.
Proof.
  unfold where_roi, roi_values.
  induction (combine lat sst) as [|lr l IH]; simpl; [reflexivity|].
  rewrite filter_app, IH. f_equal. apply masked_row.
Qed.

Lemma mean_skipna_roi (lat lon : list float64) (sst : list (list float64)) :
  mean_skipna (where_roi lat lon sst) = mean_of (roi_values lat lon sst).
Proof. unfold mean_skipna. rewrite where_roi_values. reflexivity. Qed.

(** The regional mean is the sum over the count of the cells whose
    latitude lies in [32, 35] and whose longitude lies in [124, 129],
    bounds included, and that hold a value: cells outside the region
    and empty cells do not enter it.  With no such cell the result is
    NaN, whatever the cells outside the region hold. *)
Theorem compute_jeju_mean_sst_region (ds : dataset)
        (sst : list (list float64)) (lat lon : list float64) :
  lookup "sst" (data_vars ds) = Some sst ->
  coordinate "lat" "latitude" ds = Some lat ->
  coordinate "lon" "longitude" ds = Some lon ->
  compute_jeju_mean_sst ds = inr (mean_of (roi_values lat lon sst))
  /\ (roi_values lat lon sst = [] -> compute_jeju_mean_sst ds = inr NaN).
Proof.
  intros Hs Hlat Hlon.
  assert (compute_jeju_mean_sst ds = inr (mean_of (roi_values lat lon sst)))
    as E.
  { unfold compute_jeju_mean_sst. rewrite Hs, Hlat, Hlon, mean_skipna_roi.
    reflexivity. }
  split; [exact E|].
  intros H0. rewrite E, H0. reflexivity.
Qed.

End RegionalMean.

Lemma compute_jeju_mean_sst_region_witness :
  Acquisition.compute_jeju_mean_sst
    {| Acquisition.data_vars :=
         [("sst", [[NaN; Fin 10]; [Fin 29; Fin 30]])];
       Acquisition.coords :=
         [("lat", [Fin 33; Fin 40]); ("lon", [Fin 125; Fin 200])] |}
  = inr NaN.
Proof.
  apply (compute_jeju_mean_sst_region
           {| Acquisition.data_vars :=
                [("sst", [[NaN; Fin 10]; [Fin 29; Fin 30]])];
              Acquisition.coords :=
                [("lat", [Fin 33; Fin 40]); ("lon", [Fin 125; Fin 200])] |}
           [[NaN; Fin 10]; [Fin 29; Fin 30]]
           [Fin 33; Fin 40] [Fin 125; Fin 200]
           eq_refl eq_refl eq_refl).
  unfold Acquisition.roi_values, Acquisition.between,
    JEJU_LAT_MIN, JEJU_LAT_MAX, JEJU_LON_MIN, JEJU_LON_MAX.
  cbn. float_decide. cbn. float_decide. reflexivity.
Defined.

(* ================================================================== *)
(** ** From a day's file to its row *)

Section EndToEnd.

Import Acquisition.

Lemma build_hri_row_source (df : list daily_row) (r : hri_row) :
  In r (build_hri df) -> In (input_columns r) df.
Proof.
  intros Hin. apply (in_map input_columns) in Hin.
  rewrite build_hri_pass, pass_input_columns in Hin.
  eapply Permutation_in; [apply sort_values_perm | exact Hin].
Qed.

Lemma build_hri_row_exists (df : list daily_row) (o : daily_row) :
  In o df -> exists r, In r (build_hri df) /\ input_columns r = o.
Proof.
  intros Hin.
  assert (In o (map input_columns (build_hri df))) as H.
  { rewrite build_hri_pass, pass_input_columns.
    eapply Permutation_in; [apply Permutation_sym, sort_values_perm | exact Hin]. }
  apply in_map_iff in H as (r & E & Hr). exists r. auto.
Qed.

Variable ens : Z -> option string.
Variable open_dataset : string -> option dataset.

(** A day whose file cannot be opened, or holds no variable named sst,
    leaves no row in the table: the loop skips it and goes on. *)
Theorem unreadable_day_is_skipped (days : list Z) (day : Z) (nc_path : string) :
  ens day = Some nc_path ->
  (open_dataset nc_path = None
   \/ exists ds,
       open_dataset nc_path = Some ds
       /\ lookup "sst" (data_vars ds) = None
       /\ lookup "sst" (coords ds) = None) ->
  forall r, In r (build_hri (acquire ens (parse open_dataset) days)) ->
            date r <> day.
Proof.
  intros Hp Hbad r Hr Ed.
  apply build_hri_row_source, acquire_rows in Hr as (q & _ & Eq & Et & _).
  change (o_date (input_columns r)) with (date r) in Eq.
  rewrite Ed, Hp in Eq. injection Eq as <-.
  unfold parse, compute_jeju_mean_sst in Et.
  destruct Hbad as [Ho | (ds & Ho & Hsst & _)]; rewrite Ho in Et;
    [discriminate|].
  rewrite Hsst in Et. discriminate.
Qed.

(** A day whose file is readable but has no valued cell in the region
    is not skipped: it stays in the table with a NaN temperature, level
    UNKNOWN, D_con = 0, a NaN HRI and no trigger. *)
Theorem day_without_valid_cells_is_unknown
        (days : list Z) (day : Z) (nc_path : string) (ds : dataset)
        (sst : list (list float64)) (lat lon : list float64) :
  In day days ->
  ens day = Some nc_path ->
  open_dataset nc_path = Some ds ->
  lookup "sst" (data_vars ds) = Some sst ->
  coordinate "lat" "latitude" ds = Some lat ->
  coordinate "lon" "longitude" ds = Some lon ->
  roi_values lat lon sst = [] ->
  exists r,
    In r (build_hri (acquire ens (parse open_dataset) days))
    /\ date r = day
    /\ file r = basename nc_path
    /\ T_t r = NaN
    /\ level r = UNKNOWN
    /\ D_con r = 0
    /\ HRI r = NaN
    /\ trigger r = false.
Proof.
  intros Hday Hp Hds Hs Hlat Hlon Hroi.
  assert (parse open_dataset nc_path = Some NaN) as Hparse.
  { unfold parse, compute_jeju_mean_sst.
    rewrite Hds, Hs, Hlat, Hlon, mean_skipna_roi, Hroi. reflexivity. }
  assert (In (mk_daily day (basename nc_path) NaN)
             (acquire ens (parse open_dataset) days)) as Hin.
  { apply acquire_rows. exists nc_path. simpl. auto. }
  destruct (build_hri_row_exists _ _ Hin) as (r & Hr & Er).
  exists r. split; [exact Hr|].
  assert (date r = day /\ file r = basename nc_path /\ T_t r = NaN)
    as (Ed & Ef & Et).
  { destruct r. simpl in Er. injection Er as -> -> ->. auto. }
  pose proof (build_hri_row_columns _ r Hr) as (Hh & Htr & Hl).
  assert (HRI r = NaN) as HN by (rewrite Hh, Et; apply hri_formula_nan).
  repeat split; auto.
  - rewrite Hl, Et. reflexivity.
  - apply In_nth_error in Hr as [t Ht].
    apply (D_con_reset _ _ _ Ht). rewrite Et. reflexivity.
  - rewrite Htr, HN. reflexivity.
Qed.

End EndToEnd.

Lemma unreadable_day_is_skipped_witness :
  Forall (fun r => date r <> 1)
         (build_hri (acquire (fun _ => Some "f")
                             (Acquisition.parse (fun _ => None)) [1; 2])).
Proof.
  apply Forall_forall.
  apply (unreadable_day_is_skipped (fun _ => Some "f") (fun _ => None)
                                   [1; 2] 1 "f").
  - reflexivity.
  - left. reflexivity.
Defined.

Lemma day_without_valid_cells_is_unknown_witness :
  exists r,
    In r (build_hri
            (acquire (fun _ => Some "f")
               (Acquisition.parse
                  (fun _ => Some {| Acquisition.data_vars := [("sst", [[NaN]])];
                                    Acquisition.coords :=
                                      [("lat", [Fin 33]); ("lon", [Fin 125])] |}))
               [7]))
    /\ date r = 7 /\ level r = UNKNOWN.
Proof.
  destruct (day_without_valid_cells_is_unknown
              (fun _ => Some "f")
              (fun _ => Some {| Acquisition.data_vars := [("sst", [[NaN]])];
                                Acquisition.coords :=
                                  [("lat", [Fin 33]); ("lon", [Fin 125])] |})
              [7] 7 "f"
              {| Acquisition.data_vars := [("sst", [[NaN]])];
                 Acquisition.coords :=
                   [("lat", [Fin 33]); ("lon", [Fin 125])] |}
              [[NaN]] [Fin 33] [Fin 125])
    as (r & Hr & Hd & _ & _ & Hl & _).
  - left. reflexivity.
  - reflexivity.
  - reflexivity.
  - reflexivity.
  - reflexivity.
  - reflexivity.
  - unfold Acquisition.roi_values, Acquisition.between,
      JEJU_LAT_MIN, JEJU_LAT_MAX, JEJU_LON_MIN, JEJU_LON_MAX.
    cbn. float_decide. cbn. float_decide. reflexivity.
  - exists r. auto.
Defined.

(* ================================================================== *)
(** ** Rows, not calendar days *)

Section CalendarGaps.

Lemma pass_temperatures_only (df : list daily_row) :
  forall (df' : list daily_row) (streak : Z) (prev : option float64),
    map o_T_t df = map o_T_t df' ->
    map computed_columns (pass streak prev df)
    = map computed_columns (pass streak prev df').
Proof.
  induction df as [|o df IH]; intros [|o' df'] streak prev H;
    simpl in H; try discriminate; [reflexivity|].
  injection H as Ht Hrest. simpl. rewrite Ht.
  f_equal. apply IH, Hrest.
Qed.

(** The computed columns depend on the sequence of temperatures only,
    not on the dates themselves: two date-ascending series with the
    same temperatures in the same order get the same D_con, V_var, HRI,
    trigger and level, row by row.  A day missing from the series is
    therefore not seen: the streak and the difference run from the
    last row present to the next. *)
Theorem metrics_ignore_calendar_gaps (df df' : list daily_row) :
  date_ascending df -> date_ascending df' ->
  map o_T_t df = map o_T_t df' ->
  map computed_columns (build_hri df) = map computed_columns (build_hri df').
Proof.
  intros H H' Ht. rewrite !build_hri_pass.
  rewrite (sort_values_ascending _ H), (sort_values_ascending _ H').
  apply pass_temperatures_only, Ht.
Qed.

Lemma metrics_ignore_calendar_gaps_witness :
  map computed_columns
      (build_hri [mk_daily 0 "a" (Fin 29); mk_daily 1 "b" (Fin 30)])
  = map computed_columns
        (build_hri [mk_daily 0 "a" (Fin 29); mk_daily 9 "c" (Fin 30)]).
Proof.
  apply metrics_ignore_calendar_gaps.
  - repeat constructor; simpl; lia.
  - repeat constructor; simpl; lia.
  - reflexivity.
Defined.

End CalendarGaps.
